(** * GrandJury API client: a shallow embedding of [grandjury/api_client.py]

    The client has two thin layers.  The input normalizer ([_parse_input],
    [_parse_csv], ...) turns file paths, dataframe-like objects, lists and
    dicts into a list of records.  The request dispatcher ([_make_request])
    posts a JSON payload and decodes the answer.  Six public methods and one
    free function compose the two.

    Python values are modelled by the inductive [value]; exceptions by [exn];
    a call that may raise returns [result].  The collaborators that are not
    part of the repository (the [requests] transport, JSON codecs, pandas,
    polars, pyarrow, the file system, the wall clock, the builtins [int],
    [float] and [==]) are the fields of one record, [Runtime]: every theorem
    is stated for an arbitrary runtime.  The standard-library pieces whose
    behaviour decides a claim ([str] methods, [csv.DictReader], [datetime]
    arithmetic and [isoformat]) are modelled concretely. *)

From Stdlib Require Import ZArith List Bool Lia.
From Stdlib Require Import Ascii String.
From Stdlib Require Import DecimalString.
From Stdlib Require Import PrimFloat Uint63.
Import ListNotations.

Set Warnings "-register-all".

Local Open Scope list_scope.
Local Open Scope string_scope.

(** ** Python [str] operations

    A [str] is modelled as a [string] of 8-bit characters (the UTF-8 bytes of
    the text).  The operations below act on ASCII exactly as Python's do; a
    byte above 127 is left alone by [lower], which is sound for every
    comparison the client makes: no non-ASCII code point lowers to a text
    made of the letters of ['true'], ['false'] or ['none'] only. *)
Module Str.

Definition is_upper (c : ascii) : bool :=
  ((65 <=? nat_of_ascii c) && (nat_of_ascii c <=? 90))%nat.

Definition lower_char (c : ascii) : ascii :=
  if is_upper c then ascii_of_nat (nat_of_ascii c + 32) else c.

(** [s.lower()] *)
Fixpoint lower (s : string) : string :=
  match s with
  | EmptyString => EmptyString
  | String c s' => String (lower_char c) (lower s')
  end.

(** [s.startswith(p)] *)
Fixpoint startswith (s p : string) : bool :=
  match p, s with
  | EmptyString, _ => true
  | String _ _, EmptyString => false
  | String a p', String b s' => Ascii.eqb a b && startswith s' p'
  end.

(** [s.endswith(suf)]: [suf] is [s] itself or a suffix of its tail. *)
Fixpoint endswith (s suf : string) : bool :=
  if String.eqb s suf then true
  else match s with
       | EmptyString => false
       | String _ s' => endswith s' suf
       end.

(** [sub in s] *)
Fixpoint contains (s sub : string) : bool :=
  if startswith s sub then true
  else match s with
       | EmptyString => false
       | String _ s' => contains s' sub
       end.

(** [s.rstrip(c)] for a one-character argument: every trailing [c] goes. *)
Fixpoint rstrip (c : ascii) (s : string) : string :=
  match s with
  | EmptyString => EmptyString
  | String a s' =>
      match rstrip c s' with
      | EmptyString => if Ascii.eqb a c then EmptyString else String a EmptyString
      | r => String a r
      end
  end.

(** [s.lstrip(c)] for a one-character argument. *)
Fixpoint lstrip (c : ascii) (s : string) : string :=
  match s with
  | EmptyString => EmptyString
  | String a s' => if Ascii.eqb a c then lstrip c s' else s
  end.

(** [s.rfind(c)]: the largest index of [c], if any. *)
Fixpoint rfind (c : ascii) (s : string) : option nat :=
  match s with
  | EmptyString => None
  | String a s' =>
      match rfind c s' with
      | Some i => Some (S i)
      | None => if Ascii.eqb a c then Some 0%nat else None
      end
  end.

(** [s.split(c)] *)
Fixpoint split (c : ascii) (s : string) : list string :=
  match s with
  | EmptyString => [EmptyString]
  | String a s' =>
      if Ascii.eqb a c then EmptyString :: split c s'
      else match split c s' with
           | [] => [String a EmptyString]
           | w :: ws => String a w :: ws
           end
  end.

(** [str(n)] and [f"{n}"] for an [int]. *)
Definition of_int (n : Z) : string := NilZero.string_of_int (Z.to_int n).

(** ["%0<w>d" % n] for [0 <= n]: decimal digits, zero-padded on the left. *)
Fixpoint zeros (k : nat) : string :=
  match k with O => EmptyString | S k' => String "0" (zeros k') end.

Definition zfill (w : nat) (n : Z) : string :=
  let d := of_int n in zeros (w - String.length d) ++ d.

End Str.

(** ** [pathlib.PurePosixPath]: the part of it the normalizer reads *)
Module Path.

(** The components of a path: empty components and [.] are dropped when a
    path is built from text. *)
Definition parts (p : string) : list string :=
  filter (fun s => negb (String.eqb s "") && negb (String.eqb s "."))
         (Str.split "/" p).

(** [Path(p).name]: the final component, [''] when there is none. *)
Definition name (p : string) : string := last (parts p) "".

(** [Path(p).suffix]: with [i = name.rfind('.')], the text [name[i:]] when
    [0 < i < len(name) - 1], and [''] otherwise. *)
Definition suffix (p : string) : string :=
  let n := name p in
  match Str.rfind "." n with
  | Some i =>
      if ((0 <? i) && (S i <? String.length n))%nat
      then substring i (String.length n - i) n
      else ""
  | None => ""
  end.

End Path.

(** ** Python values, exceptions and results *)

(** An instance of a class other than [str], [Path], [list] and [dict] (a
    dataframe, for one): what [_parse_input] can observe of it. *)
Record pyobject := {
  (* [str(type(o))], as in [<class 'polars.dataframe.frame.DataFrame'>] *)
  obj_type : string;
  (* [str(o.__module__)] when [hasattr(o, '__module__')] *)
  obj_module : option string;
  (* [hasattr(o, 'to_dict')] *)
  obj_has_to_dict : bool;
  (* the identity of the object *)
  obj_id : nat
}.

Inductive value : Type :=
| VNone
| VBool (b : bool)
| VInt (n : Z)
| VFloat (x : float)
| VStr (s : string)
| VPath (p : string)
| VList (xs : list value)
| VDict (kvs : list (string * value))
| VObj (o : pyobject).

(** A record: one row of tabular data, a [dict] from field name to value, in
    insertion order. *)
Definition record := list (string * value).

Inductive exn : Type :=
| Exception (msg : string)
| ValueError (msg : string)
| ImportError (msg : string)
| AttributeError (msg : string)
| OverflowError (msg : string)
| CsvError (msg : string)
(* raised inside a collaborator: [FileNotFoundError], [ConnectionError],
   [JSONDecodeError], ... *)
| Foreign (kind msg : string).

Inductive result (A : Type) : Type :=
| Ok (a : A)
| Raise (e : exn).

Arguments Ok {A} a.
Arguments Raise {A} e.

Definition rbind {A B} (r : result A) (k : A -> result B) : result B :=
  match r with
  | Ok a => k a
  | Raise e => Raise e
  end.

Definition rmap {A B} (f : A -> B) (r : result A) : result B :=
  rbind r (fun a => Ok (f a)).

(** [d[k] = v] on an insertion-ordered dict: an existing key keeps its place
    and takes the new value, a new key goes last. *)
Fixpoint dict_set {V} (d : list (string * V)) (k : string) (v : V)
  : list (string * V) :=
  match d with
  | [] => [(k, v)]
  | (k', v') :: d' =>
      if String.eqb k' k then (k', v) :: d' else (k', v') :: dict_set d' k v
  end.

(** [d[k]] / [d.get(k)] *)
Fixpoint dict_get {V} (d : list (string * V)) (k : string) : option V :=
  match d with
  | [] => None
  | (k', v') :: d' => if String.eqb k' k then Some v' else dict_get d' k
  end.

(** [str(type(v))], as the f-string of the last branch of [_parse_input]
    prints it. *)
Definition type_repr (v : value) : string :=
  match v with
  | VNone => "<class 'NoneType'>"
  | VBool _ => "<class 'bool'>"
  | VInt _ => "<class 'int'>"
  | VFloat _ => "<class 'float'>"
  | VStr _ => "<class 'str'>"
  | VPath _ => "<class 'pathlib.PosixPath'>"
  | VList _ => "<class 'list'>"
  | VDict _ => "<class 'dict'>"
  | VObj o => obj_type o
  end.

(** ** [datetime]: naive date-times, as the pure-Python [datetime] module
    computes them *)
Module Datetime.

Local Open Scope Z_scope.

Record datetime := {
  year : Z; month : Z; day : Z;
  hour : Z; minute : Z; second : Z; microsecond : Z
}.

Definition _MAXORDINAL : Z := 3652059.

Definition _DAYS_IN_MONTH : list Z :=
  [-1; 31; 28; 31; 30; 31; 30; 31; 31; 30; 31; 30; 31].

Definition _DAYS_BEFORE_MONTH : list Z :=
  [-1; 0; 31; 59; 90; 120; 151; 181; 212; 243; 273; 304; 334].

Definition _is_leap (y : Z) : bool :=
  (y mod 4 =? 0) && (negb (y mod 100 =? 0) || (y mod 400 =? 0)).

Definition _days_before_year (y : Z) : Z :=
  let y := y - 1 in y * 365 + y / 4 - y / 100 + y / 400.

Definition _days_in_month (y m : Z) : Z :=
  if (m =? 2) && _is_leap y then 29 else nth (Z.to_nat m) _DAYS_IN_MONTH 0.

Definition _days_before_month (y m : Z) : Z :=
  nth (Z.to_nat m) _DAYS_BEFORE_MONTH 0
  + (if (2 <? m) && _is_leap y then 1 else 0).

Definition _ymd2ord (y m d : Z) : Z :=
  _days_before_year y + _days_before_month y m + d.

Definition _DI400Y : Z := 146097.
Definition _DI100Y : Z := 36524.
Definition _DI4Y : Z := 1461.

(** Ordinal (day 1 is 0001-01-01) to [(year, month, day)]. *)
Definition _ord2ymd (n : Z) : Z * Z * Z :=
  let n := n - 1 in
  let n400 := n / _DI400Y in let n := n mod _DI400Y in
  let y := n400 * 400 + 1 in
  let n100 := n / _DI100Y in let n := n mod _DI100Y in
  let n4 := n / _DI4Y in let n := n mod _DI4Y in
  let n1 := n / 365 in let n := n mod 365 in
  let y := y + n100 * 100 + n4 * 4 + n1 in
  if (n1 =? 4) || (n100 =? 4) then (y - 1, 12, 31)
  else
    let leapyear := (n1 =? 3) && (negb (n4 =? 24) || (n100 =? 3)) in
    let m := Z.shiftr (n + 50) 5 in
    let preceding :=
      nth (Z.to_nat m) _DAYS_BEFORE_MONTH 0
      + (if (2 <? m) && leapyear then 1 else 0) in
    if n <? preceding then
      let m := m - 1 in
      let preceding :=
        preceding - (nth (Z.to_nat m) _DAYS_IN_MONTH 0
                     + (if (m =? 2) && leapyear then 1 else 0)) in
      (y, m, n - preceding + 1)
    else (y, m, n - preceding + 1).

(** [dt.toordinal()] *)
Definition toordinal (dt : datetime) : Z :=
  _ymd2ord (year dt) (month dt) (day dt).

(** The fields are those of a date-time that [datetime] can hold. *)
Definition valid (dt : datetime) : bool :=
  (1 <=? year dt) && (year dt <=? 9999)
  && (1 <=? month dt) && (month dt <=? 12)
  && (1 <=? day dt) && (day dt <=? _days_in_month (year dt) (month dt))
  && (0 <=? hour dt) && (hour dt <? 24)
  && (0 <=? minute dt) && (minute dt <? 60)
  && (0 <=? second dt) && (second dt <? 60)
  && (0 <=? microsecond dt) && (microsecond dt <? 1000000).

(** [datetime.min], the first date-time there is. *)
Definition datetime_min : datetime :=
  {| year := 1; month := 1; day := 1;
     hour := 0; minute := 0; second := 0; microsecond := 0 |}.

(** Microseconds since the start of day 0 of the proleptic calendar. *)
Definition to_microseconds (dt : datetime) : Z :=
  ((toordinal dt * 86400 + hour dt * 3600 + minute dt * 60 + second dt)
   * 1000000) + microsecond dt.

(** [dt - timedelta(hours=h)]: the sum is normalised to days, seconds and
    microseconds; a day outside [1 .. _MAXORDINAL] is an [OverflowError]. *)
Definition sub_hours (dt : datetime) (h : Z) : result datetime :=
  let total := to_microseconds dt - h * 3600 * 1000000 in
  let days := total / 86400000000 in
  let rest := total mod 86400000000 in
  let seconds := rest / 1000000 in
  let us := rest mod 1000000 in
  let hh := seconds / 3600 in
  let rem := seconds mod 3600 in
  if (0 <? days) && (days <=? _MAXORDINAL) then
    let '(y, m, d) := _ord2ymd days in
    Ok {| year := y; month := m; day := d;
          hour := hh; minute := rem / 60; second := rem mod 60;
          microsecond := us |}
  else Raise (OverflowError "date value out of range").

(** [dt.isoformat()] of a naive date-time: [YYYY-MM-DDTHH:MM:SS], followed
    by [.ffffff] when the microsecond field is not zero. *)
Definition isoformat (dt : datetime) : string :=
  let no_fraction := microsecond dt =? 0 in
  (Str.zfill 4 (year dt) ++ "-" ++ Str.zfill 2 (month dt) ++ "-"
   ++ Str.zfill 2 (day dt) ++ "T"
   ++ Str.zfill 2 (hour dt) ++ ":" ++ Str.zfill 2 (minute dt) ++ ":"
   ++ Str.zfill 2 (second dt)
   ++ (if no_fraction then "" else "." ++ Str.zfill 6 (microsecond dt)))%string.

End Datetime.

(** ** The [csv] module: [csv.reader] in the default [excel] dialect and
    [csv.DictReader] over it

    The dialect has delimiter [,], quote character 34, [doublequote], no
    escape character, no [skipinitialspace], and is not [strict]; the
    parser states that need an escape character are therefore absent. *)
Module Csv.

Definition LF : ascii := ascii_of_nat 10.
Definition CR : ascii := ascii_of_nat 13.
Definition delimiter : ascii := ascii_of_nat 44.
Definition quotechar : ascii := ascii_of_nat 34.
Definition field_limit : Z := 131072.

Definition snoc (s : string) (c : ascii) : string := s ++ String c "".

(** Iterating a text file opened with [newline='']: a line ends after
    [LF], after [CR LF], or after a [CR] that no [LF] follows, and keeps
    its ending. *)
Fixpoint readlines_from (line text : string) : list string :=
  match text with
  | EmptyString =>
      match line with
      | EmptyString => []
      | _ => [line]
      end
  | String c text' =>
      if Ascii.eqb c LF then snoc line c :: readlines_from "" text'
      else if Ascii.eqb c CR then
        match text' with
        | String c' text'' =>
            if Ascii.eqb c' LF
            then snoc (snoc line c) c' :: readlines_from "" text''
            else snoc line c :: readlines_from "" text'
        | EmptyString => snoc line c :: readlines_from "" text'
        end
      else readlines_from (snoc line c) text'
  end.

Definition readlines (text : string) : list string := readlines_from "" text.

Inductive ParserState : Type :=
| START_RECORD
| START_FIELD
| IN_FIELD
| IN_QUOTED_FIELD
| QUOTE_IN_QUOTED_FIELD
| EAT_CRNL.

(** What the parser is fed: a character of the line, or the end-of-line
    mark that follows the last character of every line. *)
Inductive input : Type :=
| Ch (c : ascii)
| EOL.

Record Reader := {
  state : ParserState;
  (* the field being read *)
  field : string;
  (* the fields of the record read so far *)
  fields : list string
}.

Definition parse_reset : Reader :=
  {| state := START_RECORD; field := ""; fields := [] |}.

Definition set_state (r : Reader) (s : ParserState) : Reader :=
  {| state := s; field := field r; fields := fields r |}.

Definition parse_save_field (r : Reader) : Reader :=
  {| state := state r; field := ""; fields := (fields r ++ [field r])%list |}.

Definition parse_add_char (r : Reader) (c : ascii) : result Reader :=
  if (field_limit <=? Z.of_nat (String.length (field r)))%Z
  then Raise (CsvError "field larger than field limit (131072)")
  else Ok {| state := state r; field := snoc (field r) c;
             fields := fields r |}.

Definition is_newline (i : input) : bool :=
  match i with
  | Ch c => Ascii.eqb c LF || Ascii.eqb c CR
  | EOL => false
  end.

Definition is_char (i : input) (c : ascii) : bool :=
  match i with
  | Ch c' => Ascii.eqb c' c
  | EOL => false
  end.

Definition after_record (i : input) : ParserState :=
  match i with
  | EOL => START_RECORD
  | Ch _ => EAT_CRNL
  end.

(** [START_FIELD], which [START_RECORD] falls through to. *)
Definition start_field (r : Reader) (i : input) : result Reader :=
  match i with
  | EOL => Ok (set_state (parse_save_field r) START_RECORD)
  | Ch c =>
      if is_newline i then Ok (set_state (parse_save_field r) EAT_CRNL)
      else if Ascii.eqb c quotechar then Ok (set_state r IN_QUOTED_FIELD)
      else if Ascii.eqb c delimiter then Ok (parse_save_field r)
      else rmap (fun r' => set_state r' IN_FIELD) (parse_add_char r c)
  end.

Definition parse_process_char (r : Reader) (i : input) : result Reader :=
  match state r with
  | START_RECORD =>
      match i with
      | EOL => Ok r
      | Ch _ =>
          if is_newline i then Ok (set_state r EAT_CRNL)
          else start_field (set_state r START_FIELD) i
      end
  | START_FIELD => start_field r i
  | IN_FIELD =>
      match i with
      | EOL => Ok (set_state (parse_save_field r) START_RECORD)
      | Ch c =>
          if is_newline i then Ok (set_state (parse_save_field r) EAT_CRNL)
          else if Ascii.eqb c delimiter
          then Ok (set_state (parse_save_field r) START_FIELD)
          else parse_add_char r c
      end
  | IN_QUOTED_FIELD =>
      match i with
      | EOL => Ok r
      | Ch c =>
          if Ascii.eqb c quotechar then Ok (set_state r QUOTE_IN_QUOTED_FIELD)
          else parse_add_char r c
      end
  | QUOTE_IN_QUOTED_FIELD =>
      match i with
      | EOL => Ok (set_state (parse_save_field r) START_RECORD)
      | Ch c =>
          if Ascii.eqb c quotechar
          then rmap (fun r' => set_state r' IN_QUOTED_FIELD)
                    (parse_add_char r c)
          else if Ascii.eqb c delimiter
          then Ok (set_state (parse_save_field r) START_FIELD)
          else if is_newline i
          then Ok (set_state (parse_save_field r) EAT_CRNL)
          else rmap (fun r' => set_state r' IN_FIELD) (parse_add_char r c)
      end
  | EAT_CRNL =>
      match i with
      | EOL => Ok (set_state r START_RECORD)
      | Ch _ =>
          if is_newline i then Ok r
          else Raise (CsvError
                 "new-line character seen in unquoted field - do you need to open the file with newline=''?")
      end
  end.

(** One line: each of its characters, then the end-of-line mark. *)
Fixpoint feed_line (r : Reader) (line : string) : result Reader :=
  match line with
  | EmptyString => parse_process_char r EOL
  | String c line' =>
      rbind (parse_process_char r (Ch c)) (fun r' => feed_line r' line')
  end.

Definition is_start_record (s : ParserState) : bool :=
  match s with
  | START_RECORD => true
  | _ => false
  end.

Definition is_in_quoted_field (s : ParserState) : bool :=
  match s with
  | IN_QUOTED_FIELD => true
  | _ => false
  end.

(** The rows [csv.reader] yields over the lines, in order.  A row is read
    only when the loop asks for it, so an error ends the sequence where it
    happens: the rows before it have been yielded. *)
Fixpoint reader_rows (r : Reader) (lines : list string)
  : list (result (list string)) :=
  match lines with
  | [] =>
      if negb (String.length (field r) =? 0)%nat
         || is_in_quoted_field (state r)
      then [Ok (fields (parse_save_field r))]
      else []
  | line :: lines' =>
      match feed_line r line with
      | Raise e => [Raise e]
      | Ok r' =>
          if is_start_record (state r')
          then Ok (fields r') :: reader_rows parse_reset lines'
          else reader_rows r' lines'
      end
  end.

Definition reader (text : string) : list (result (list string)) :=
  reader_rows parse_reset (readlines text).

(** A row as [csv.DictReader] yields it: [dict(zip(fieldnames, row))] in
    insertion order, then either the surplus cells under the key [None]
    ([restkey]), or the value [None] ([restval]) for each field name the
    row is too short for. *)
Record DictRow := {
  items : list (string * option string);
  restkey_value : option (list string)
}.

Definition dict_row (fieldnames row : list string) : DictRow :=
  let d := fold_left (fun d kv => dict_set d (fst kv) (Some (snd kv)))
                     (combine fieldnames row) [] in
  let lf := List.length fieldnames in
  let lr := List.length row in
  if (lf <? lr)%nat then
    {| items := d; restkey_value := Some (skipn lf row) |}
  else if (lr <? lf)%nat then
    {| items := fold_left (fun d k => dict_set d k None)
                          (skipn lr fieldnames) d;
       restkey_value := None |}
  else {| items := d; restkey_value := None |}.

(** [DictReader.__next__]: rows equal to [[]] are passed over. *)
Fixpoint dict_rows (fieldnames : list string)
  (rows : list (result (list string))) : list (result DictRow) :=
  match rows with
  | [] => []
  | Raise e :: _ => [Raise e]
  | Ok [] :: rows' => dict_rows fieldnames rows'
  | Ok row :: rows' => Ok (dict_row fieldnames row) :: dict_rows fieldnames rows'
  end.

(** [csv.DictReader(f)]: the first row the reader yields gives the field
    names. *)
Definition DictReader (text : string) : list (result DictRow) :=
  match reader text with
  | [] => []
  | Raise e :: _ => [Raise e]
  | Ok fieldnames :: rows => dict_rows fieldnames rows
  end.

End Csv.

(** ** The collaborators *)

Record response := {
  status_code : Z;
  text : string
}.

(** The body argument of [requests.post]: [data=] a text already encoded,
    or [json=] a value that [requests] encodes itself. *)
Inductive body : Type :=
| DataText (json_data : string)
| JsonValue (payload : value).

Record request := {
  req_url : string;
  req_body : body;
  req_headers : list (string * string)
}.

Record Runtime := {
  (* the availability flags set by the imports at the top of the module *)
  HAS_PANDAS : bool;
  HAS_POLARS : bool;
  HAS_PYARROW : bool;
  HAS_MSGSPEC : bool;
  (* [int(v)] and [float(v)] of a [str]; [None] stands for [ValueError] *)
  py_int : string -> option Z;
  py_float : string -> option float;
  (* the truth value of [p == r] *)
  py_eq : value -> value -> bool;
  (* [datetime.now()] *)
  now : Datetime.datetime;
  (* the text of the file at a path, read as UTF-8 with [newline=''] *)
  open_text : string -> result string;
  (* [requests.post] *)
  requests_post : request -> result response;
  (* [response.json()] *)
  response_json : response -> result value;
  (* [msgspec.json.encode(payload).decode()] *)
  msgspec_encode : value -> result string;
  (* [pd.read_csv] and [pd.read_parquet] *)
  pd_read_csv : string -> result pyobject;
  pd_read_parquet : string -> result pyobject;
  (* [df.where(pd.notna(df), None).to_dict('records')] *)
  df_records_notna : pyobject -> result (list record);
  (* [df.to_dict('records')] *)
  df_records : pyobject -> result (list record);
  (* the truth value of [pd.isna(v)] *)
  pd_isna : value -> bool;
  (* [v.item()] when [hasattr(v, 'item')] *)
  py_item : value -> option value;
  (* [pq.read_table(path).to_pylist()] *)
  pq_read_pylist : string -> result (list record);
  (* [df.to_dicts()] of polars *)
  pl_to_dicts : pyobject -> result (list record)
}.

(** ** State and exceptions

    A computation runs against a state and either returns or raises; the
    state it leaves behind is kept in both cases. *)
Definition M (S A : Type) : Type := S -> result A * S.

Definition ret {S A} (a : A) : M S A := fun s => (Ok a, s).

Definition raise {S A} (e : exn) : M S A := fun s => (Raise e, s).

Definition bind {S A B} (m : M S A) (k : A -> M S B) : M S B :=
  fun s =>
    match m s with
    | (Ok a, s') => k a s'
    | (Raise e, s') => (Raise e, s')
    end.

Definition lift {S A} (r : result A) : M S A := fun s => (r, s).

Definition get {S} : M S S := fun s => (Ok s, s).

Notation "x <- m ;; k" := (bind m (fun x => k))
  (at level 61, m at next level, right associativity).

(** The attributes of a client instance. *)
Record Client := {
  api_key : option string;
  base_url : string
}.

(** What a method of the client runs against: its instance and the
    requests put on the wire so far, oldest first. *)
Record World := {
  self : Client;
  wire : list request
}.

(** [requests.post(...)]: the request goes on the wire and the transport
    answers or raises. *)
Definition post (rt : Runtime) (rq : request) : M World response :=
  fun w => (requests_post rt rq,
            {| self := self w; wire := (wire w ++ [rq])%list |}).

(** ** The client *)

Definition API_BASE_URL : string :=
  "https://grandjury-server.onrender.com/api/v1".

(** [x is None] *)
Definition is_None (v : value) : bool :=
  match v with
  | VNone => true
  | _ => false
  end.

Module GrandJuryClient.

Definition __init__ (api_key_arg : option string) (base_url_arg : string)
  : Client :=
  let self := {| api_key := api_key_arg;
                 base_url := Str.rstrip "/" base_url_arg |} in
  if negb (Str.endswith (base_url self) "/api/v1")
  then {| api_key := api_key self; base_url := base_url self ++ "/api/v1" |}
  else self.

(** [if self.api_key:] holds for a key that is neither [None] nor empty. *)
Definition _get_headers (self : Client) : list (string * string) :=
  let headers := [("Content-Type", "application/json")] in
  match api_key self with
  | Some k =>
      if String.eqb k "" then headers
      else dict_set headers "Authorization" ("Bearer " ++ k)
  | None => headers
  end.

Definition _make_request (rt : Runtime) (endpoint : string) (payload : value)
  : M World value :=
  w <- get ;;
  let url := (base_url (self w) ++ "/" ++ Str.lstrip "/" endpoint)%string in
  let headers := _get_headers (self w) in
  response <-
    (if HAS_MSGSPEC rt then
       json_data <- lift (msgspec_encode rt payload) ;;
       post rt {| req_url := url; req_body := DataText json_data;
                  req_headers := headers |}
     else
       post rt {| req_url := url; req_body := JsonValue payload;
                  req_headers := headers |}) ;;
  if (status_code response =? 200)%Z then lift (response_json rt response)
  else raise (Exception ("API Error (" ++ Str.of_int (status_code response)
                         ++ "): " ++ text response)).

(** The conversion of one cell of a CSV row, lines 109 to 121. *)
Definition coerce_cell (rt : Runtime) (v : string) : value :=
  if existsb (String.eqb (Str.lower v)) ["true"; "false"]
  then VBool (String.eqb (Str.lower v) "true")
  else if String.eqb (Str.lower v) "none" || String.eqb v ""
  then VNone
  else
    match (if Str.contains v "."
           then option_map VFloat (py_float rt v)
           else option_map VInt (py_int rt v)) with
    | Some x => x
    | None => VStr v
    end.

(** [for k, v in row.items()]: a value that is not a [str] has no [lower]. *)
Fixpoint process_items (rt : Runtime) (its : list (string * option string))
  (processed_row : record) : result record :=
  match its with
  | [] => Ok processed_row
  | (k, None) :: _ =>
      Raise (AttributeError "'NoneType' object has no attribute 'lower'")
  | (k, Some v) :: its' =>
      process_items rt its' (dict_set processed_row k (coerce_cell rt v))
  end.

Definition process_row (rt : Runtime) (row : Csv.DictRow) : result record :=
  rbind (process_items rt (Csv.items row) [])
    (fun processed_row =>
       match Csv.restkey_value row with
       | Some _ =>
           Raise (AttributeError "'list' object has no attribute 'lower'")
       | None => Ok processed_row
       end).

(** [for row in reader: ... records.append(processed_row)] *)
Fixpoint process_rows (rt : Runtime) (rows : list (result Csv.DictRow))
  (records : list record) : result (list record) :=
  match rows with
  | [] => Ok records
  | Raise e :: _ => Raise e
  | Ok row :: rows' =>
      rbind (process_row rt row)
        (fun processed_row =>
           process_rows rt rows' (records ++ [processed_row])%list)
  end.

Definition convert_record (rt : Runtime) (rec : record) : record :=
  fold_left
    (fun converted_record kv =>
       if HAS_PANDAS rt && pd_isna rt (snd kv)
       then dict_set converted_record (fst kv) VNone
       else match py_item rt (snd kv) with
            | Some x => dict_set converted_record (fst kv) x
            | None => dict_set converted_record (fst kv) (snd kv)
            end)
    rec [].

(** A method of a dataframe, called on a value: only an object has it. *)
Definition method {A} (name : string) (f : pyobject -> result A) (df : value)
  : result A :=
  match df with
  | VObj o => f o
  | _ => Raise (AttributeError
                  ("object has no attribute '" ++ name ++ "'"))
  end.

Definition _pandas_to_records (rt : Runtime) (df : value)
  : result (list record) :=
  rbind (if HAS_PANDAS rt then method "where" (df_records_notna rt) df
         else method "to_dict" (df_records rt) df)
    (fun records => Ok (map (convert_record rt) records)).

Definition _parse_csv (rt : Runtime) (file_path : string)
  : result (list record) :=
  if HAS_PANDAS rt then
    rbind (pd_read_csv rt file_path)
      (fun df => _pandas_to_records rt (VObj df))
  else
    rbind (open_text rt file_path)
      (fun f => process_rows rt (Csv.DictReader f) []).

Definition _parse_parquet (rt : Runtime) (file_path : string)
  : result (list record) :=
  if HAS_PANDAS rt then
    rbind (pd_read_parquet rt file_path)
      (fun df => _pandas_to_records rt (VObj df))
  else if HAS_PYARROW rt then pq_read_pylist rt file_path
  else Raise (ImportError
                "Either pandas or pyarrow is required to read Parquet files").

Definition _parse_pandas (rt : Runtime) (df : value)
  : result (list record) :=
  _pandas_to_records rt df.

Definition _parse_polars (rt : Runtime) (df : value)
  : result (list record) :=
  method "to_dicts" (pl_to_dicts rt) df.

(** A list of records as a Python value. *)
Definition records_value (records : list record) : value :=
  VList (map VDict records).

(** [str(data.__module__)] when [hasattr(data, '__module__')]: an instance
    of a builtin type has no such attribute. *)
Definition module_of (data : value) : option string :=
  match data with
  | VObj o => obj_module o
  | _ => None
  end.

Definition has_module (data : value) : bool :=
  match module_of data with
  | Some _ => true
  | None => false
  end.

Definition has_to_dict (data : value) : bool :=
  match data with
  | VObj o => obj_has_to_dict o
  | _ => false
  end.

(** [sub in str(data.__module__)] *)
Definition module_contains (data : value) (sub : string) : bool :=
  match module_of data with
  | Some m => Str.contains m sub
  | None => false
  end.

Definition _parse_input (rt : Runtime) (data : value) : result value :=
  match data with
  | VStr file_path | VPath file_path =>
      let suffix := Path.suffix file_path in
      if String.eqb (Str.lower suffix) ".csv"
      then rmap records_value (_parse_csv rt file_path)
      else if existsb (String.eqb (Str.lower suffix)) [".parquet"; ".pq"]
      then rmap records_value (_parse_parquet rt file_path)
      else Raise (ValueError ("Unsupported file format: " ++ suffix))
  | _ =>
      if HAS_POLARS rt && has_module data && module_contains data "polars"
      then rmap records_value (_parse_polars rt data)
      else if HAS_PANDAS rt && has_module data
              && (module_contains data "pandas" || has_to_dict data)
      then rmap records_value (_parse_pandas rt data)
      else
        match data with
        | VList _ => Ok data
        | VDict _ => Ok (VList [data])
        | _ => Raise (ValueError ("Unsupported data type: " ++ type_repr data))
        end
  end.

(** *** The public operations *)

Definition default_previous_score : value := VFloat 0%float.

Definition evaluate_model (rt : Runtime)
  (previous_score previous_timestamp votes reputations : value)
  : M World value :=
  previous_timestamp <-
    (if is_None previous_timestamp then
       t <- lift (Datetime.sub_hours (now rt) 1) ;;
       ret (VStr (Datetime.isoformat t))
     else ret previous_timestamp) ;;
  let votes := if is_None votes then VList [] else votes in
  let reputations := if is_None reputations then VList [] else reputations in
  let payload := VDict [("previous_score", previous_score);
                        ("previous_timestamp", previous_timestamp);
                        ("votes", votes);
                        ("reputations", reputations)] in
  _make_request rt "evaluate" payload.

Definition vote_histogram (rt : Runtime) (data duration_minutes gross : value)
  : M World value :=
  parsed_data <- lift (_parse_input rt data) ;;
  let payload := VDict [("data", parsed_data);
                        ("duration_minutes", duration_minutes);
                        ("gross", gross)] in
  _make_request rt "verdict/histogram" payload.

(** [if inference_ids is not None: payload["inference_ids"] = inference_ids] *)
Definition with_inference_ids (payload : record) (inference_ids : value)
  : record :=
  if negb (is_None inference_ids)
  then dict_set payload "inference_ids" inference_ids
  else payload.

Definition vote_completeness (rt : Runtime)
  (data voter_list inference_ids gross : value) : M World value :=
  parsed_data <- lift (_parse_input rt data) ;;
  let payload := [("data", parsed_data);
                  ("voter_list", voter_list);
                  ("gross", gross)] in
  _make_request rt "verdict/completeness"
    (VDict (with_inference_ids payload inference_ids)).

Definition population_confidence (rt : Runtime)
  (data voter_list inference_ids : value) : M World value :=
  parsed_data <- lift (_parse_input rt data) ;;
  let payload := [("data", parsed_data);
                  ("voter_list", voter_list)] in
  _make_request rt "verdict/population-confidence"
    (VDict (with_inference_ids payload inference_ids)).

Definition majority_good_votes (rt : Runtime)
  (data good_vote threshold : value) : M World value :=
  parsed_data <- lift (_parse_input rt data) ;;
  let payload := VDict [("data", parsed_data);
                        ("good_vote", good_vote);
                        ("threshold", threshold)] in
  _make_request rt "verdict/majority-good" payload.

Definition votes_distribution (rt : Runtime) (data inference_ids : value)
  : M World value :=
  parsed_data <- lift (_parse_input rt data) ;;
  let payload := [("data", parsed_data)] in
  _make_request rt "verdict/votes-distribution"
    (VDict (with_inference_ids payload inference_ids)).

End GrandJuryClient.

(** A method call on a client instance, seen from outside the class: the
    caller shares the wire and holds the instance. *)
Definition call {A} (client : Client) (m : M World A)
  : M (list request) (A * Client) :=
  fun net =>
    match m {| self := client; wire := net |} with
    | (Ok a, w) => (Ok (a, self w), wire w)
    | (Raise e, w) => (Raise e, wire w)
    end.

(** [[1.0 if p == r else 0.0 for p, r in zip(predictions, references)]] *)
Definition agreement_votes (rt : Runtime) (predictions references : list value)
  : list value :=
  map (fun pr => if py_eq rt (fst pr) (snd pr)
                 then VFloat 1%float else VFloat 0%float)
      (combine predictions references).

(** The free function [evaluate_model] kept for backward compatibility. *)
Definition evaluate_model (rt : Runtime) (predictions references : value)
  (api_key_arg : option string) : M (list request) value :=
  let client := GrandJuryClient.__init__ api_key_arg API_BASE_URL in
  match predictions, references with
  | VList ps, VList rs =>
      let votes := agreement_votes rt ps rs in
      let reputations := repeat (VFloat 1%float) (List.length votes) in
      r <- call client
             (GrandJuryClient.evaluate_model rt
                GrandJuryClient.default_previous_score VNone
                (VList votes) (VList reputations)) ;;
      ret (fst r)
  | _, _ =>
      r <- call client
             (GrandJuryClient.evaluate_model rt
                GrandJuryClient.default_previous_score VNone
                predictions references) ;;
      ret (fst r)
  end.

(** ** A concrete runtime

    An interpreter with none of the optional libraries installed, one CSV
    file on disk, a fixed clock, and a server that answers the [evaluate]
    endpoint with status 200 and every other endpoint with status 500.  The
    builtins are given for the texts the examples use: decimal integers and
    short decimal fractions. *)
Module Demo.

Definition digit_of (c : ascii) : option Z :=
  let n := nat_of_ascii c in
  if ((48 <=? n) && (n <=? 57))%nat then Some (Z.of_nat n - 48)%Z else None.

(** The number written by a text of decimal digits, continuing from [acc]. *)
Fixpoint digits_from (acc : Z) (s : string) : option Z :=
  match s with
  | EmptyString => Some acc
  | String c s' =>
      match digit_of c with
      | Some d => digits_from (acc * 10 + d)%Z s'
      | None => None
      end
  end.

Definition unsigned (s : string) : option Z :=
  match s with
  | EmptyString => None
  | _ => digits_from 0 s
  end.

(** [int(s)] for an optional sign followed by decimal digits. *)
Definition int (s : string) : option Z :=
  match s with
  | String "-" s' => option_map Z.opp (unsigned s')
  | String "+" s' => unsigned s'
  | _ => unsigned s
  end.

(** [float(s)] for [digits.digits] with an optional sign, when the digits
    taken together stay below [2^53] and at most 18 follow the point: the
    quotient of two floats that hold their integers exactly is the
    correctly rounded value. *)
Definition unsigned_float (s : string) : option float :=
  match Str.split "." s with
  | [whole; frac] =>
      match unsigned (whole ++ frac) with
      | Some m =>
          if ((m <? 2 ^ 53)%Z && (String.length frac <=? 18)%nat)%bool
          then Some (PrimFloat.div
                       (PrimFloat.of_uint63 (Uint63.of_Z m))
                       (PrimFloat.of_uint63
                          (Uint63.of_Z (10 ^ Z.of_nat (String.length frac)))))
          else None
      | None => None
      end
  | _ => None
  end.

Definition float (s : string) : option float :=
  match s with
  | String "-" s' => option_map PrimFloat.opp (unsigned_float s')
  | String "+" s' => unsigned_float s'
  | _ => unsigned_float s
  end.

(** [==] on [None], [bool], [int] and [str] values; [True == 1] as in
    Python. *)
Definition eq (a b : value) : bool :=
  match a, b with
  | VNone, VNone => true
  | VStr s, VStr s' => String.eqb s s'
  | VInt n, VInt n' => Z.eqb n n'
  | VBool x, VBool y => Bool.eqb x y
  | VBool x, VInt n | VInt n, VBool x => Z.eqb n (if x then 1 else 0)
  | VFloat x, VFloat y => PrimFloat.eqb x y
  | _, _ => false
  end.

Definition newline : string := String Csv.LF "".

Definition quote : string := String Csv.quotechar "".

(** The file [votes.csv]: a header, a row [None], an empty line. *)
Definition votes_csv : string := "x" ++ newline ++ "None" ++ newline ++ newline.

(** The file [cells.csv]: a header, a row [None], a quoted empty cell. *)
Definition cells_csv : string :=
  "x" ++ newline ++ "None" ++ newline ++ quote ++ quote ++ newline.

(** The file [ab.csv] *)
Definition ab_csv : string := "a,b" ++ newline ++ "1,2.5" ++ newline.

(** The file [flags.csv] *)
Definition flags_csv : string :=
  "flag" ++ newline ++ "True" ++ newline ++ "False" ++ newline.

Definition files : list (string * string) :=
  [("votes.csv", votes_csv); ("cells.csv", cells_csv); ("ab.csv", ab_csv);
   ("flags.csv", flags_csv)].

Definition open_file (path : string) : result string :=
  match dict_get files path with
  | Some content => Ok content
  | None => Raise (Foreign "FileNotFoundError" path)
  end.

Definition server (rq : request) : result response :=
  if Str.endswith (req_url rq) "/evaluate"
  then Ok {| status_code := 200; text := "null" |}
  else Ok {| status_code := 500; text := "server error" |}.

Definition json (r : response) : result value :=
  if String.eqb (text r) "null" then Ok VNone
  else if String.eqb (text r) "true" then Ok (VBool true)
  else if String.eqb (text r) "false" then Ok (VBool false)
  else Raise (Foreign "JSONDecodeError" (text r)).

Definition not_installed {A B} (library : string) (_ : A) : result B :=
  Raise (Foreign "ModuleNotFoundError" library).

Definition clock : Datetime.datetime :=
  {| Datetime.year := 2024; Datetime.month := 3; Datetime.day := 1;
     Datetime.hour := 0; Datetime.minute := 30; Datetime.second := 5;
     Datetime.microsecond := 0 |}.

Definition runtime : Runtime :=
  {| HAS_PANDAS := false;
     HAS_POLARS := false;
     HAS_PYARROW := false;
     HAS_MSGSPEC := false;
     py_int := int;
     py_float := float;
     py_eq := eq;
     now := clock;
     open_text := open_file;
     requests_post := server;
     response_json := json;
     msgspec_encode := not_installed "msgspec";
     pd_read_csv := not_installed "pandas";
     pd_read_parquet := not_installed "pandas";
     df_records_notna := not_installed "pandas";
     df_records := not_installed "pandas";
     pd_isna := fun _ => false;
     py_item := fun _ => None;
     pq_read_pylist := not_installed "pyarrow";
     pl_to_dicts := not_installed "polars" |}.

(** A world to start from: a default client and an empty wire. *)
Definition world : World :=
  {| self := GrandJuryClient.__init__ None API_BASE_URL; wire := [] |}.

(** The request the default client builds in this runtime. *)
Definition request_of (endpoint : string) (payload : value) : request :=
  {| req_url := API_BASE_URL ++ "/" ++ endpoint;
     req_body := JsonValue payload;
     req_headers := [("Content-Type", "application/json")] |}.

End Demo.

(** ** Vocabulary of the specification *)

(** The operations a holder of a client instance can invoke on it. *)
Inductive operation : Type :=
| Make_request (endpoint : string) (payload : value)
| Parse_input (data : value)
| Evaluate_model (previous_score previous_timestamp votes reputations : value)
| Vote_histogram (data duration_minutes gross : value)
| Vote_completeness (data voter_list inference_ids gross : value)
| Population_confidence (data voter_list inference_ids : value)
| Majority_good_votes (data good_vote threshold : value)
| Votes_distribution (data inference_ids : value).

Definition perform (rt : Runtime) (op : operation) : M World value :=
  match op with
  | Make_request endpoint payload =>
      GrandJuryClient._make_request rt endpoint payload
  | Parse_input data => lift (GrandJuryClient._parse_input rt data)
  | Evaluate_model previous_score previous_timestamp votes reputations =>
      GrandJuryClient.evaluate_model rt previous_score previous_timestamp
        votes reputations
  | Vote_histogram data duration_minutes gross =>
      GrandJuryClient.vote_histogram rt data duration_minutes gross
  | Vote_completeness data voter_list inference_ids gross =>
      GrandJuryClient.vote_completeness rt data voter_list inference_ids gross
  | Population_confidence data voter_list inference_ids =>
      GrandJuryClient.population_confidence rt data voter_list inference_ids
  | Majority_good_votes data good_vote threshold =>
      GrandJuryClient.majority_good_votes rt data good_vote threshold
  | Votes_distribution data inference_ids =>
      GrandJuryClient.votes_distribution rt data inference_ids
  end.

(** The world after a sequence of operations, whether each returned or
    raised. *)
Definition perform_all (rt : Runtime) (ops : list operation) (w : World)
  : World :=
  fold_left (fun w op => snd (perform rt op w)) ops w.

(** [k] copies of one character. *)
Fixpoint copies (c : ascii) (k : nat) : string :=
  match k with
  | O => EmptyString
  | S k' => String c (copies c k')
  end.

(** The request [_make_request] builds for an endpoint and a payload: the
    joined URL, the headers, and the payload encoded by msgspec when it is
    installed, handed to [requests] as it is otherwise. *)
Definition request_for (rt : Runtime) (c : Client) (endpoint : string)
  (payload : value) (rq : request) : Prop :=
  req_url rq = base_url c ++ "/" ++ Str.lstrip "/" endpoint
  /\ req_headers rq = GrandJuryClient._get_headers c
  /\ (if HAS_MSGSPEC rt
      then exists json_data,
          msgspec_encode rt payload = Ok json_data
          /\ req_body rq = DataText json_data
      else req_body rq = JsonValue payload).

(** The message of the error raised for a response that is not a 200. *)
Definition api_error_message (status : Z) (body_text : string) : string :=
  "API Error (" ++ Str.of_int status ++ "): " ++ body_text.

(** Equality of two texts up to the case of ASCII letters. *)
Fixpoint ci_eq (a b : string) : bool :=
  match a, b with
  | EmptyString, EmptyString => true
  | String x a', String y b' =>
      Ascii.eqb (Str.lower_char x) (Str.lower_char y) && ci_eq a' b'
  | _, _ => false
  end.

(** The coercion of a CSV cell as the specification words it: booleans
    first, then null, then a number (an integer parse for a text with no
    decimal point, a floating-point parse otherwise), and the text itself
    when the parse fails. *)
Definition coerce_spec (rt : Runtime) (v : string) : value :=
  if ci_eq v "true" then VBool true
  else if ci_eq v "false" then VBool false
  else if ci_eq v "none" || String.eqb v "" then VNone
  else if Str.contains v "." then
    match py_float rt v with
    | Some x => VFloat x
    | None => VStr v
    end
  else
    match py_int rt v with
    | Some n => VInt n
    | None => VStr v
    end.

Definition is_scalar (v : value) : bool :=
  match v with
  | VNone | VBool _ | VInt _ | VFloat _ | VStr _ => true
  | _ => false
  end.

Definition is_mapping (v : value) : bool :=
  match v with
  | VDict _ => true
  | _ => false
  end.

(** Every value of the dict is a scalar. *)
Definition scalar_valued (d : record) : bool :=
  forallb (fun kv => is_scalar (snd kv)) d.

(** A Record: a mapping from field name to scalar. *)
Definition is_record (v : value) : bool :=
  match v with
  | VDict kvs => forallb (fun kv => is_scalar (snd kv)) kvs
  | _ => false
  end.

(** An ordered sequence of Records. *)
Definition is_record_sequence (v : value) : bool :=
  match v with
  | VList xs => forallb is_record xs
  | _ => false
  end.

(** An ordered sequence of mappings, whatever their values. *)
Definition is_mapping_sequence (v : value) : bool :=
  match v with
  | VList xs => forallb is_mapping xs
  | _ => false
  end.

(** A path to a CSV file, as [_parse_input] recognises it. *)
Definition csv_path (data : value) : bool :=
  match data with
  | VStr p | VPath p => String.eqb (Str.lower (Path.suffix p)) ".csv"
  | _ => false
  end.

(** The evaluate operation called on a fresh default client, as the free
    function delegates to it: the result and the wire afterwards. *)
Definition evaluate_call (rt : Runtime) (api_key_arg : option string)
  (votes reputations : value) (net : list request)
  : result value * list request :=
  let client := GrandJuryClient.__init__ api_key_arg API_BASE_URL in
  let out := GrandJuryClient.evaluate_model rt
               GrandJuryClient.default_previous_score VNone votes reputations
               {| self := client; wire := net |} in
  (fst out, wire (snd out)).

(** One hour, in microseconds. *)
Definition hour_us : Z := 3600000000.

(** *** The calendar *)

(** The month and day of the day numbered [n] (from 0) of a year. *)
Definition month_day (n : Z) (leapyear : bool) : Z * Z :=
  let m := Z.shiftr (n + 50) 5 in
  let preceding :=
    (nth (Z.to_nat m) Datetime._DAYS_BEFORE_MONTH 0
     + (if (2 <? m) && leapyear then 1 else 0))%Z in
  if (n <? preceding)%Z then
    let m := (m - 1)%Z in
    let preceding :=
      (preceding - (nth (Z.to_nat m) Datetime._DAYS_IN_MONTH 0
                    + (if (m =? 2) && leapyear then 1 else 0)))%Z in
    (m, n - preceding + 1)%Z
  else (m, n - preceding + 1)%Z.

(** The month and day found for day [n] of a year are a date of that year,
    and the days before it number [n]. *)
Definition month_day_ok (leapyear : bool) (n : Z) : bool :=
  let '(m, d) := month_day n leapyear in
  ((nth (Z.to_nat m) Datetime._DAYS_BEFORE_MONTH 0
    + (if (2 <? m) && leapyear then 1 else 0) + d =? n + 1)
   && (1 <=? m) && (m <=? 12) && (1 <=? d)
   && (d <=? (if (m =? 2) && leapyear then 29
              else nth (Z.to_nat m) Datetime._DAYS_IN_MONTH 0)))%Z.

(** [f] holds of the [p] integers from [base] on. *)
Fixpoint all_from (f : Z -> bool) (base : Z) (p : positive) : bool :=
  match p with
  | xH => f base
  | xO p' => all_from f base p' && all_from f (base + Zpos p')%Z p'
  | xI p' =>
      f base && all_from f (base + 1)%Z p'
      && all_from f (base + 1 + Zpos p')%Z p'
  end.

(** The date found for an ordinal is a date of the calendar, and the
    ordinal of that date is the one started from. *)
Definition ordinal_sound (n : Z) (ymd : Z * Z * Z) : Prop :=
  let '(y, m, d) := ymd in
  (Datetime._ymd2ord y m d = n
   /\ 1 <= y <= 9999 /\ 1 <= m <= 12
   /\ 1 <= d <= Datetime._days_in_month y m)%Z.


(** *** Further vocabulary *)

(** The [data] argument of a public operation that takes one. *)
Definition data_of (op : operation) : option value :=
  match op with
  | Vote_histogram data _ _
  | Vote_completeness data _ _ _
  | Population_confidence data _ _
  | Majority_good_votes data _ _
  | Votes_distribution data _ => Some data
  | _ => None
  end.

(** The last character of a text. *)
Fixpoint last_char (s : string) : option ascii :=
  match s with
  | EmptyString => None
  | String a s' =>
      match last_char s' with
      | Some b => Some b
      | None => Some a
      end
  end.

(** [isinstance(v, list)] *)
Definition is_list (v : value) : bool :=
  match v with
  | VList _ => true
  | _ => false
  end.

(** A row of the reader that [DictReader] does not pass over. *)
Definition nonblank (row : list string) : bool :=
  match row with
  | [] => false
  | _ => true
  end.

(** What [_pandas_to_records] makes of one value of a record, lines 153 to
    158: a missing value becomes [None], a value with an [item] method is
    replaced by what the method returns, anything else is kept. *)
Definition convert_value (rt : Runtime) (v : value) : value :=
  if HAS_PANDAS rt && pd_isna rt v then VNone
  else match py_item rt v with
       | Some x => x
       | None => v
       end.

(** The keys of a dict, in order. *)
Definition keys {V} (d : list (string * V)) : list string := map fst d.

(** The headers a client with this key sends. *)
Definition headers_for (key : option string) : list (string * string) :=
  match key with
  | Some k =>
      if String.eqb k "" then [("Content-Type", "application/json")]
      else [("Content-Type", "application/json");
            ("Authorization", "Bearer " ++ k)]
  | None => [("Content-Type", "application/json")]
  end.

(** The messages of the [AttributeError] a cell that is not a text meets at
    [v.lower()]. *)
Definition no_lower_on_none : string :=
  "'NoneType' object has no attribute 'lower'".

Definition no_lower_on_list : string :=
  "'list' object has no attribute 'lower'".

(** Some value of the dict is [None]. *)
Definition has_none {A} (d : list (string * option A)) : Prop :=
  exists k, In (k, None) d.

(** No value of the dict is [None]. *)
Definition all_some {A} (d : list (string * option A)) : Prop :=
  forall kv, In kv d -> snd kv <> None.

(** The endpoint a public operation posts to. *)
Definition endpoint_of (op : operation) : option string :=
  match op with
  | Evaluate_model _ _ _ _ => Some "evaluate"
  | Vote_histogram _ _ _ => Some "verdict/histogram"
  | Vote_completeness _ _ _ _ => Some "verdict/completeness"
  | Population_confidence _ _ _ => Some "verdict/population-confidence"
  | Majority_good_votes _ _ _ => Some "verdict/majority-good"
  | Votes_distribution _ _ => Some "verdict/votes-distribution"
  | _ => None
  end.

(** The [inference_ids] argument of a public operation that takes one. *)
Definition inference_ids_of (op : operation) : option value :=
  match op with
  | Vote_completeness _ _ inference_ids _
  | Population_confidence _ _ inference_ids
  | Votes_distribution _ inference_ids => Some inference_ids
  | _ => None
  end.

(** *** More concrete runtimes

    Variations of the concrete runtime: one whose disk also holds a CSV file
    with rows of uneven length, one with pandas installed and a dataframe in
    memory, and one whose clock reads the first instant of the calendar. *)
Module Lab.

(** The file [ragged.csv]: a header of two names, a row of one cell, a row
    of two. *)
Definition ragged_csv : string :=
  "a,b" ++ Demo.newline ++ "1" ++ Demo.newline ++ "2,3" ++ Demo.newline.

Definition open_file (path : string) : result string :=
  if String.eqb path "ragged.csv" then Ok ragged_csv
  else Demo.open_file path.

Definition with_clock_and_disk (clock : Datetime.datetime)
  (disk : string -> result string) : Runtime :=
  {| HAS_PANDAS := false;
     HAS_POLARS := false;
     HAS_PYARROW := false;
     HAS_MSGSPEC := false;
     py_int := Demo.int;
     py_float := Demo.float;
     py_eq := Demo.eq;
     now := clock;
     open_text := disk;
     requests_post := Demo.server;
     response_json := Demo.json;
     msgspec_encode := Demo.not_installed "msgspec";
     pd_read_csv := Demo.not_installed "pandas";
     pd_read_parquet := Demo.not_installed "pandas";
     df_records_notna := Demo.not_installed "pandas";
     df_records := Demo.not_installed "pandas";
     pd_isna := fun _ => false;
     py_item := fun _ => None;
     pq_read_pylist := Demo.not_installed "pyarrow";
     pl_to_dicts := Demo.not_installed "polars" |}.

(** The plain runtime with the larger disk. *)
Definition plain : Runtime := with_clock_and_disk Demo.clock open_file.

(** The plain runtime at the first instant of the calendar. *)
Definition early : Runtime :=
  with_clock_and_disk Datetime.datetime_min Demo.open_file.

(** A pandas dataframe of one row, with a score and a missing label. *)
Definition frame : pyobject :=
  {| obj_type := "<class 'pandas.core.frame.DataFrame'>";
     obj_module := Some "pandas.core.frame";
     obj_has_to_dict := true;
     obj_id := 1 |}.

Definition frame_records (df : pyobject) : result (list record) :=
  if Nat.eqb (obj_id df) 1
  then Ok [[("score", VFloat 0.5%float); ("label", VNone)]]
  else Raise (AttributeError "object has no attribute 'where'").

Definition isna (v : value) : bool :=
  match v with
  | VNone => true
  | VFloat x => PrimFloat.is_nan x
  | _ => false
  end.

(** A runtime with pandas installed. *)
Definition pandas : Runtime :=
  {| HAS_PANDAS := true;
     HAS_POLARS := false;
     HAS_PYARROW := false;
     HAS_MSGSPEC := false;
     py_int := Demo.int;
     py_float := Demo.float;
     py_eq := Demo.eq;
     now := Demo.clock;
     open_text := Demo.open_file;
     requests_post := Demo.server;
     response_json := Demo.json;
     msgspec_encode := Demo.not_installed "msgspec";
     pd_read_csv := Demo.not_installed "no such file";
     pd_read_parquet := Demo.not_installed "no such file";
     df_records_notna := frame_records;
     df_records := frame_records;
     pd_isna := isna;
     py_item := fun _ => None;
     pq_read_pylist := Demo.not_installed "pyarrow";
     pl_to_dicts := Demo.not_installed "polars" |}.

End Lab.

(** * Properties *)

(** ** Texts *)

Lemma endswith_self (s : string) : Str.endswith s s = true.
Proof.
  destruct s; simpl.
  - reflexivity.
  - now rewrite Ascii.eqb_refl, String.eqb_refl.
Qed.

Lemma endswith_cons (a : ascii) (s suf : string) :
  Str.endswith (String a s) suf
  = if String.eqb (String a s) suf then true else Str.endswith s suf.
Proof. reflexivity. Qed.

Lemma endswith_append (p s : string) : Str.endswith (p ++ s) s = true.
Proof.
  induction p as [|a p IH].
  - apply endswith_self.
  - change (String a p ++ s) with (String a (p ++ s)).
    rewrite endswith_cons, IH.
    now destruct (String.eqb (String a (p ++ s)) s).
Qed.

Lemma endswith_split (s suf : string) :
  Str.endswith s suf = true -> exists p, s = p ++ suf.
Proof.
  induction s as [|a s IH].
  - destruct suf; simpl; [| discriminate].
    intros _. now exists "".
  - rewrite endswith_cons.
    destruct (String.eqb (String a s) suf) eqn:E.
    + apply String.eqb_eq in E. intros _. now exists "".
    + intros H. destruct (IH H) as [p Hp].
      exists (String a p). simpl. now rewrite <- Hp.
Qed.

Lemma startswith_empty (s : string) : Str.startswith s "" = true.
Proof. now destruct s. Qed.

Lemma startswith_append (s t : string) : Str.startswith (s ++ t) s = true.
Proof.
  induction s as [|a s IH]; simpl.
  - apply startswith_empty.
  - now rewrite Ascii.eqb_refl.
Qed.

Lemma contains_cons (a : ascii) (s sub : string) :
  Str.contains (String a s) sub
  = if Str.startswith (String a s) sub then true else Str.contains s sub.
Proof. reflexivity. Qed.

Lemma contains_here (s sub : string) :
  Str.startswith s sub = true -> Str.contains s sub = true.
Proof.
  intros H. destruct s.
  - unfold Str.contains. now rewrite H.
  - rewrite contains_cons. now rewrite H.
Qed.

Lemma contains_later (p s sub : string) :
  Str.contains s sub = true -> Str.contains (p ++ s) sub = true.
Proof.
  intros H. induction p as [|a p IH].
  - exact H.
  - change (String a p ++ s) with (String a (p ++ s)).
    rewrite contains_cons, IH.
    now destruct (Str.startswith (String a (p ++ s)) sub).
Qed.

Lemma contains_infix (p s q : string) : Str.contains (p ++ s ++ q) s = true.
Proof. apply contains_later, contains_here, startswith_append. Qed.

Lemma startswith_self (s : string) : Str.startswith s s = true.
Proof. induction s; simpl; [reflexivity | now rewrite Ascii.eqb_refl]. Qed.

Lemma contains_suffix (p s : string) : Str.contains (p ++ s) s = true.
Proof. apply contains_later, contains_here, startswith_self. Qed.

(** [rstrip] removes a run of the character from the end and nothing else,
    and what is left does not end with it. *)
Lemma rstrip_decompose (c : ascii) (s : string) :
  exists k, s = Str.rstrip c s ++ copies c k.
Proof.
  induction s as [|a s [k IH]]; simpl.
  - now exists 0%nat.
  - destruct (Str.rstrip c s) as [|b r] eqn:E.
    + destruct (Ascii.eqb a c) eqn:Eac.
      * apply Ascii.eqb_eq in Eac. subst a.
        exists (S k). simpl. simpl in IH. now rewrite <- IH.
      * exists k. simpl. simpl in IH. now rewrite <- IH.
    + exists k. simpl. simpl in IH. now rewrite <- IH.
Qed.

Lemma rstrip_last (c : ascii) (s : string) :
  Str.endswith (Str.rstrip c s) (String c "") = false.
Proof.
  induction s as [|a s IH]; simpl.
  - reflexivity.
  - destruct (Str.rstrip c s) as [|b r] eqn:E.
    + destruct (Ascii.eqb a c) eqn:Eac; simpl.
      * reflexivity.
      * now rewrite Eac.
    + remember (String b r) as t. simpl.
      destruct (Ascii.eqb a c); [| exact IH].
      destruct t as [|b' r']; [discriminate | exact IH].
Qed.

(** ** The client configuration *)

Lemma lift_keeps_world {A} (r : result A) (w : World) :
  snd (lift r w) = w.
Proof. reflexivity. Qed.

Lemma make_request_keeps_self (rt : Runtime) (endpoint : string)
  (payload : value) (w : World) :
  self (snd (GrandJuryClient._make_request rt endpoint payload w)) = self w.
Proof.
  unfold GrandJuryClient._make_request, bind, get, lift, raise, post.
  destruct (HAS_MSGSPEC rt).
  - destruct (msgspec_encode rt payload) as [js|e]; simpl; [| reflexivity].
    destruct (requests_post rt _) as [resp|e]; simpl; [| reflexivity].
    destruct (status_code resp =? 200)%Z; reflexivity.
  - destruct (requests_post rt _) as [resp|e]; simpl; [| reflexivity].
    destruct (status_code resp =? 200)%Z; reflexivity.
Qed.

Lemma parse_then_request_keeps_self (rt : Runtime) (data : value)
  (endpoint : string) (build : value -> value) (w : World) :
  self (snd ((parsed_data <- lift (GrandJuryClient._parse_input rt data) ;;
              GrandJuryClient._make_request rt endpoint (build parsed_data))
             w)) = self w.
Proof.
  unfold bind at 1, lift.
  destruct (GrandJuryClient._parse_input rt data) as [parsed|e].
  - apply make_request_keeps_self.
  - reflexivity.
Qed.

Lemma perform_keeps_self (rt : Runtime) (op : operation) (w : World) :
  self (snd (perform rt op w)) = self w.
Proof.
  destruct op; simpl.
  - apply make_request_keeps_self.
  - reflexivity.
  - unfold GrandJuryClient.evaluate_model, bind at 1.
    destruct (is_None previous_timestamp).
    + unfold bind at 1, lift, ret.
      destruct (Datetime.sub_hours (now rt) 1); simpl.
      * apply make_request_keeps_self.
      * reflexivity.
    + unfold ret. apply make_request_keeps_self.
  - apply (parse_then_request_keeps_self rt data "verdict/histogram"
             (fun parsed => VDict [("data", parsed);
                                   ("duration_minutes", duration_minutes);
                                   ("gross", gross)])).
  - apply (parse_then_request_keeps_self rt data "verdict/completeness"
             (fun parsed => VDict (GrandJuryClient.with_inference_ids
                                     [("data", parsed);
                                      ("voter_list", voter_list);
                                      ("gross", gross)] inference_ids))).
  - apply (parse_then_request_keeps_self rt data
             "verdict/population-confidence"
             (fun parsed => VDict (GrandJuryClient.with_inference_ids
                                     [("data", parsed);
                                      ("voter_list", voter_list)]
                                     inference_ids))).
  - apply (parse_then_request_keeps_self rt data "verdict/majority-good"
             (fun parsed => VDict [("data", parsed);
                                   ("good_vote", good_vote);
                                   ("threshold", threshold)])).
  - apply (parse_then_request_keeps_self rt data "verdict/votes-distribution"
             (fun parsed => VDict (GrandJuryClient.with_inference_ids
                                     [("data", parsed)] inference_ids))).
Qed.

Lemma perform_all_keeps_self (rt : Runtime) (ops : list operation) (w : World) :
  self (perform_all rt ops w) = self w.
Proof.
  unfold perform_all. revert w.
  induction ops as [|op ops IH]; intros w; simpl.
  - reflexivity.
  - rewrite IH. apply perform_keeps_self.
Qed.

(** C6.  Whatever base URL the constructor is given, the stored base URL
    ends with [/api/v1]: it is the argument without its trailing slashes
    when that already ends with the segment, and that text followed by the
    segment otherwise.  The key is stored as given, and no operation, nor
    any sequence of operations, changes the instance afterwards. *)
Theorem base_url_versioned_and_never_mutated :
  forall (key : option string) (url : string),
    Str.endswith (base_url (GrandJuryClient.__init__ key url)) "/api/v1" = true
    /\ (exists k, url = Str.rstrip "/" url ++ copies "/" k)
    /\ Str.endswith (Str.rstrip "/" url) "/" = false
    /\ base_url (GrandJuryClient.__init__ key url)
       = (if Str.endswith (Str.rstrip "/" url) "/api/v1"
          then Str.rstrip "/" url
          else Str.rstrip "/" url ++ "/api/v1")
    /\ api_key (GrandJuryClient.__init__ key url) = key
    /\ forall (rt : Runtime) (ops : list operation) (net : list request),
        self (perform_all rt ops
                {| self := GrandJuryClient.__init__ key url; wire := net |})
        = GrandJuryClient.__init__ key url.
Proof.
  intros key url.
  assert (Hurl : base_url (GrandJuryClient.__init__ key url)
                 = (if Str.endswith (Str.rstrip "/" url) "/api/v1"
                    then Str.rstrip "/" url
                    else Str.rstrip "/" url ++ "/api/v1")).
  { unfold GrandJuryClient.__init__; cbn [base_url api_key].
    destruct (Str.endswith (Str.rstrip "/" url) "/api/v1"); reflexivity. }
  repeat split.
  - rewrite Hurl.
    destruct (Str.endswith (Str.rstrip "/" url) "/api/v1") eqn:E.
    + exact E.
    + apply endswith_append.
  - apply rstrip_decompose.
  - apply rstrip_last.
  - exact Hurl.
  - unfold GrandJuryClient.__init__; cbn [base_url api_key].
    destruct (Str.endswith (Str.rstrip "/" url) "/api/v1"); reflexivity.
  - intros rt ops net. now rewrite perform_all_keeps_self.
Qed.

(** ** The dispatcher *)

Lemma make_request_answered (rt : Runtime) (w : World) (endpoint : string)
  (payload : value) (rq : request) (resp : response) :
  request_for rt (self w) endpoint payload rq ->
  requests_post rt rq = Ok resp ->
  GrandJuryClient._make_request rt endpoint payload w
  = (if (status_code resp =? 200)%Z then response_json rt resp
     else Raise (Exception (api_error_message (status_code resp) (text resp))),
     {| self := self w; wire := (wire w ++ [rq])%list |}).
Proof.
  intros (Hurl & Hhdr & Hbody) Hpost.
  destruct rq as [u b h]; cbn [req_url req_body req_headers] in *.
  subst u h.
  unfold GrandJuryClient._make_request, bind, get, lift, raise, post.
  destruct (HAS_MSGSPEC rt).
  - destruct Hbody as (js & Hjs & ->). rewrite Hjs, Hpost.
    now destruct (status_code resp =? 200)%Z.
  - subst b. rewrite Hpost.
    now destruct (status_code resp =? 200)%Z.
Qed.

Lemma endswith_later (p s suf : string) :
  Str.endswith s suf = true -> Str.endswith (p ++ s) suf = true.
Proof.
  intros H. induction p as [|a p IH].
  - exact H.
  - change (String a p ++ s) with (String a (p ++ s)).
    rewrite endswith_cons, IH.
    now destruct (String.eqb (String a (p ++ s)) suf).
Qed.

(** C1.  When the request built for an endpoint and a payload is answered
    with a response whose status is not 200, the dispatcher raises the error
    whose message is [API Error (<status>): <body>]: the decimal status code
    and the body text both occur in it, the body verbatim at its end.  When
    the status is 200, the dispatcher yields what decoding the body as JSON
    yields. *)
Theorem dispatch_by_status :
  forall (rt : Runtime) (w : World) (endpoint : string) (payload : value)
         (rq : request) (resp : response),
    request_for rt (self w) endpoint payload rq ->
    requests_post rt rq = Ok resp ->
    (status_code resp <> 200%Z ->
     exists msg,
       fst (GrandJuryClient._make_request rt endpoint payload w)
       = Raise (Exception msg)
       /\ msg = api_error_message (status_code resp) (text resp)
       /\ Str.contains msg (Str.of_int (status_code resp)) = true
       /\ Str.contains msg (text resp) = true
       /\ Str.endswith msg (text resp) = true)
    /\ (status_code resp = 200%Z ->
        fst (GrandJuryClient._make_request rt endpoint payload w)
        = response_json rt resp).
Proof.
  intros rt w endpoint payload rq resp Hrq Hpost.
  rewrite (make_request_answered rt w endpoint payload rq resp Hrq Hpost).
  cbn [fst]. split.
  - intros Hstatus.
    apply Z.eqb_neq in Hstatus. rewrite Hstatus.
    exists (api_error_message (status_code resp) (text resp)).
    unfold api_error_message. repeat split.
    + apply (contains_infix "API Error (").
    + apply contains_later, contains_later, contains_suffix.
    + apply endswith_later, endswith_later, endswith_append.
  - intros Hstatus. rewrite Hstatus. reflexivity.
Qed.

(** The scenario of the specification: status 500 with body
    [server error]. *)
Example dispatch_500_server_error :
  fst (GrandJuryClient.vote_histogram Demo.runtime
         (VDict [("vote", VBool true)]) (VInt 60) (VBool true)
         {| self := GrandJuryClient.__init__ None API_BASE_URL; wire := [] |})
  = Raise (Exception "API Error (500): server error").
Proof. reflexivity. Qed.

Lemma demo_request_built (endpoint : string) (payload : value) :
  Str.lstrip "/" endpoint = endpoint ->
  request_for Demo.runtime (self Demo.world) endpoint payload
    (Demo.request_of endpoint payload).
Proof.
  intros H. unfold request_for, Demo.request_of; cbn.
  rewrite H. repeat split.
Qed.

Lemma dispatch_by_status_witness :
  (exists msg,
      fst (GrandJuryClient._make_request Demo.runtime "verdict/histogram"
             VNone Demo.world) = Raise (Exception msg)
      /\ msg = api_error_message 500 "server error"
      /\ Str.contains msg (Str.of_int 500) = true
      /\ Str.contains msg "server error" = true
      /\ Str.endswith msg "server error" = true)
  /\ fst (GrandJuryClient._make_request Demo.runtime "evaluate" VNone
            Demo.world) = Ok VNone.
Proof.
  split.
  - apply (proj1 (dispatch_by_status Demo.runtime Demo.world
                    "verdict/histogram" VNone
                    (Demo.request_of "verdict/histogram" VNone)
                    {| status_code := 500; text := "server error" |}
                    (demo_request_built "verdict/histogram" VNone eq_refl)
                    eq_refl)).
    cbn. discriminate.
  - apply (proj2 (dispatch_by_status Demo.runtime Demo.world
                    "evaluate" VNone
                    (Demo.request_of "evaluate" VNone)
                    {| status_code := 200; text := "null" |}
                    (demo_request_built "evaluate" VNone eq_refl)
                    eq_refl)).
    reflexivity.
Defined.

(** ** The coercion of CSV cells *)

Lemma ci_eq_lower (a b : string) :
  ci_eq a b = String.eqb (Str.lower a) (Str.lower b).
Proof.
  revert b. induction a as [|x a IH]; intros [|y b]; simpl; try reflexivity.
  rewrite IH. now destruct (Ascii.eqb (Str.lower_char x) (Str.lower_char y)).
Qed.

Lemma ci_eq_same_lower (a b : string) :
  ci_eq a b = true <-> Str.lower a = Str.lower b.
Proof. rewrite ci_eq_lower. apply String.eqb_eq. Qed.

(** C2.  The value a cell text is given is the one the priority order of
    the specification names: a text equal to [true] or [false] up to case is
    that boolean; failing that, a text equal to [none] up to case, or the
    empty text, is null; failing that, a text with no decimal point is what
    the integer parse makes of it and a text with one is what the
    floating-point parse makes of it; and when that parse fails the cell is
    the text itself. *)
Theorem coerce_cell_follows_priority :
  forall (rt : Runtime) (v : string),
    GrandJuryClient.coerce_cell rt v = coerce_spec rt v.
Proof.
  intros rt v.
  unfold GrandJuryClient.coerce_cell, coerce_spec.
  rewrite !ci_eq_lower. cbn [existsb Str.lower].
  change (String (Str.lower_char "t") (String (Str.lower_char "r")
            (String (Str.lower_char "u") (String (Str.lower_char "e") ""))))
    with "true".
  change (String (Str.lower_char "f") (String (Str.lower_char "a")
            (String (Str.lower_char "l") (String (Str.lower_char "s")
               (String (Str.lower_char "e") "")))))
    with "false".
  change (String (Str.lower_char "n") (String (Str.lower_char "o")
            (String (Str.lower_char "n") (String (Str.lower_char "e") ""))))
    with "none".
  destruct (String.eqb (Str.lower v) "true") eqn:Etrue; [reflexivity |].
  destruct (String.eqb (Str.lower v) "false") eqn:Efalse; [reflexivity |].
  cbn [orb].
  destruct (String.eqb (Str.lower v) "none" || String.eqb v "")%bool;
    [reflexivity |].
  destruct (Str.contains v ".").
  - now destruct (py_float rt v).
  - now destruct (py_int rt v).
Qed.

(** The priority order at work, with the builtins of the concrete
    runtime. *)
Example coerce_cell_samples :
  map (GrandJuryClient.coerce_cell Demo.runtime)
      ["TRUE"; "fAlse"; "NONE"; ""; "12"; "-3"; "1.5"; "1e5"; "abc"; "1.2.3"]
  = [VBool true; VBool false; VNone; VNone; VInt 12; VInt (-3);
     VFloat 1.5%float; VStr "1e5"; VStr "abc"; VStr "1.2.3"].
Proof. vm_compute. reflexivity. Qed.

(** The scenarios of the specification for CSV text: integers and decimals,
    and the two booleans. *)
Example parse_csv_numbers :
  GrandJuryClient._parse_input Demo.runtime (VStr "ab.csv")
  = Ok (VList [VDict [("a", VInt 1); ("b", VFloat 2.5%float)]]).
Proof. vm_compute. reflexivity. Qed.

Example parse_csv_flags :
  GrandJuryClient._parse_input Demo.runtime (VStr "flags.csv")
  = Ok (VList [VDict [("flag", VBool true)]; VDict [("flag", VBool false)]]).
Proof. vm_compute. reflexivity. Qed.

(** ** The normalizer *)

(** A value of a builtin type other than [str] and [Path] reaches the last
    two tests of [_parse_input]: it has no [__module__]. *)
Lemma parse_input_list (rt : Runtime) (xs : list value) :
  GrandJuryClient._parse_input rt (VList xs) = Ok (VList xs).
Proof.
  unfold GrandJuryClient._parse_input.
  cbn [GrandJuryClient.has_module GrandJuryClient.module_of].
  rewrite !andb_false_r. reflexivity.
Qed.

Lemma parse_input_dict (rt : Runtime) (m : record) :
  GrandJuryClient._parse_input rt (VDict m) = Ok (VList [VDict m]).
Proof.
  unfold GrandJuryClient._parse_input.
  cbn [GrandJuryClient.has_module GrandJuryClient.module_of].
  rewrite !andb_false_r. reflexivity.
Qed.

(** C4.  A list of mappings is returned as it is. *)
Theorem normalize_list_identity :
  forall (rt : Runtime) (records : list record),
    GrandJuryClient._parse_input rt (GrandJuryClient.records_value records)
    = Ok (GrandJuryClient.records_value records).
Proof. intros rt records. apply parse_input_list. Qed.

(** C5.  A single mapping is wrapped in a one-element list. *)
Theorem normalize_singleton_wrap :
  forall (rt : Runtime) (m : record),
    GrandJuryClient._parse_input rt (VDict m) = Ok (VList [VDict m]).
Proof. intros rt m. apply parse_input_dict. Qed.

Lemma records_value_mappings (records : list record) :
  forallb is_mapping (map VDict records) = true.
Proof. induction records; simpl; auto. Qed.

Lemma rmap_records_value (r : result (list record)) (out : value) :
  rmap GrandJuryClient.records_value r = Ok out ->
  exists records, r = Ok records /\ out = VList (map VDict records).
Proof.
  destruct r as [records|e]; simpl; [| discriminate].
  intros H. injection H as <-. now exists records.
Qed.

Lemma coerce_cell_scalar (rt : Runtime) (v : string) :
  is_scalar (GrandJuryClient.coerce_cell rt v) = true.
Proof.
  unfold GrandJuryClient.coerce_cell.
  destruct (existsb _ _); [reflexivity |].
  destruct (_ || _)%bool; [reflexivity |].
  destruct (Str.contains v ".").
  - now destruct (py_float rt v).
  - now destruct (py_int rt v).
Qed.

Lemma dict_set_scalar (d : record) (k : string) (v : value) :
  scalar_valued d = true -> is_scalar v = true ->
  scalar_valued (dict_set d k v) = true.
Proof.
  unfold scalar_valued. intros Hd Hv.
  induction d as [|[k' v'] d IH]; simpl in *.
  - now rewrite Hv.
  - apply andb_prop in Hd as [Hv' Hd].
    destruct (String.eqb k' k); simpl.
    + now rewrite Hv, Hd.
    + now rewrite Hv', IH.
Qed.

Lemma process_items_scalar (rt : Runtime) (its : list (string * option string)) :
  forall acc out,
    scalar_valued acc = true ->
    GrandJuryClient.process_items rt its acc = Ok out ->
    scalar_valued out = true.
Proof.
  induction its as [|[k [v|]] its IH]; intros acc out Hacc; simpl.
  - intros H. now injection H as <-.
  - apply IH. apply dict_set_scalar; [exact Hacc | apply coerce_cell_scalar].
  - discriminate.
Qed.

Lemma process_row_scalar (rt : Runtime) (row : Csv.DictRow) (out : record) :
  GrandJuryClient.process_row rt row = Ok out -> scalar_valued out = true.
Proof.
  unfold GrandJuryClient.process_row.
  destruct (GrandJuryClient.process_items rt (Csv.items row) []) as [d|e] eqn:E;
    simpl; [| discriminate].
  destruct (Csv.restkey_value row); [discriminate |].
  intros H. injection H as <-.
  now apply (process_items_scalar rt (Csv.items row) [] d).
Qed.

Lemma process_rows_scalar (rt : Runtime) (rows : list (result Csv.DictRow)) :
  forall acc out,
    forallb scalar_valued acc = true ->
    GrandJuryClient.process_rows rt rows acc = Ok out ->
    forallb scalar_valued out = true.
Proof.
  induction rows as [|[row|e] rows IH]; intros acc out Hacc; simpl.
  - intros H. now injection H as <-.
  - destruct (GrandJuryClient.process_row rt row) as [d|e] eqn:E; simpl;
      [| discriminate].
    apply IH. rewrite forallb_app, Hacc. simpl.
    now rewrite (process_row_scalar rt row d E).
  - discriminate.
Qed.

Lemma records_of_scalars (records : list record) :
  forallb scalar_valued records = true ->
  forallb is_record (map VDict records) = true.
Proof.
  induction records as [|d records IH]; simpl; [reflexivity |].
  intros H. apply andb_prop in H as [Hd Hr].
  unfold scalar_valued in Hd. now rewrite Hd, IH.
Qed.

Lemma parse_csv_plain_scalar (rt : Runtime) (p : string) (records : list record) :
  HAS_PANDAS rt = false ->
  GrandJuryClient._parse_csv rt p = Ok records ->
  forallb scalar_valued records = true.
Proof.
  unfold GrandJuryClient._parse_csv. intros -> H.
  destruct (open_text rt p) as [f|e]; simpl in H; [| discriminate].
  now apply (process_rows_scalar rt (Csv.DictReader f) [] records).
Qed.

Lemma parse_input_path (rt : Runtime) (p : string) (data out : value) :
  data = VStr p \/ data = VPath p ->
  GrandJuryClient._parse_input rt data = Ok out ->
  exists xs, out = VList xs
    /\ forallb is_mapping xs = true
    /\ (HAS_PANDAS rt = false -> csv_path data = true ->
        forallb is_record xs = true).
Proof.
  intros Hdata H.
  assert (Hin : (if String.eqb (Str.lower (Path.suffix p)) ".csv"
                 then rmap GrandJuryClient.records_value
                        (GrandJuryClient._parse_csv rt p)
                 else if existsb (String.eqb (Str.lower (Path.suffix p)))
                                 [".parquet"; ".pq"]
                 then rmap GrandJuryClient.records_value
                        (GrandJuryClient._parse_parquet rt p)
                 else Raise (ValueError ("Unsupported file format: "
                                         ++ Path.suffix p))) = Ok out).
  { destruct Hdata; subst data; exact H. }
  assert (Hcsv : csv_path data = String.eqb (Str.lower (Path.suffix p)) ".csv").
  { destruct Hdata; subst data; reflexivity. }
  rewrite Hcsv. clear H Hcsv Hdata.
  destruct (String.eqb (Str.lower (Path.suffix p)) ".csv").
  - apply rmap_records_value in Hin as (records & Hr & ->).
    exists (map VDict records). repeat split.
    + apply records_value_mappings.
    + intros Hp _. apply records_of_scalars.
      now apply (parse_csv_plain_scalar rt p).
  - destruct (existsb _ _); [| discriminate].
    apply rmap_records_value in Hin as (records & Hr & ->).
    exists (map VDict records). repeat split.
    + apply records_value_mappings.
    + discriminate.
Qed.

(** C3, as the code has it.  Whatever input the normalizer accepts, it
    returns a list: never a bare scalar, never a mapping on its own.  The
    elements of the list are mappings when the input is a file path, a
    dataframe-like object, a single mapping, or a list whose elements are
    mappings; a list is returned without a look at its elements.  For a CSV
    file read by the plain-text parser the mappings are Records: every value
    is a scalar. *)
Theorem normalize_returns_sequence :
  forall (rt : Runtime) (data out : value),
    GrandJuryClient._parse_input rt data = Ok out ->
    exists xs,
      out = VList xs
      /\ (match data with
          | VList ys => forallb is_mapping ys
          | _ => true
          end = true -> forallb is_mapping xs = true)
      /\ (HAS_PANDAS rt = false -> csv_path data = true ->
          forallb is_record xs = true).
Proof.
  intros rt data out H.
  destruct data as [| b | n | x | p | p | ys | m | o].
  7: { rewrite parse_input_list in H. injection H as <-.
       exists ys. repeat split; [tauto | discriminate]. }
  7: { rewrite parse_input_dict in H. injection H as <-.
       exists [VDict m]. repeat split; discriminate. }
  5: { destruct (parse_input_path rt p (VStr p) out (or_introl eq_refl) H)
         as (xs & -> & Hm & Hr).
       exists xs. repeat split; auto. }
  5: { destruct (parse_input_path rt p (VPath p) out (or_intror eq_refl) H)
         as (xs & -> & Hm & Hr).
       exists xs. repeat split; auto. }
  1-4: unfold GrandJuryClient._parse_input in H;
       cbn [GrandJuryClient.has_module GrandJuryClient.module_of] in H;
       rewrite !andb_false_r in H; discriminate.
  unfold GrandJuryClient._parse_input in H.
  destruct (HAS_POLARS rt && _ && _)%bool.
  - apply rmap_records_value in H as (records & _ & ->).
    exists (map VDict records). repeat split.
    + intros _. apply records_value_mappings.
    + discriminate.
  - destruct (HAS_PANDAS rt && _ && _)%bool; [| discriminate].
    apply rmap_records_value in H as (records & _ & ->).
    exists (map VDict records). repeat split.
    + intros _. apply records_value_mappings.
    + discriminate.
Qed.

Lemma normalize_returns_sequence_witness :
  GrandJuryClient._parse_input Demo.runtime (VStr "votes.csv")
  = Ok (VList [VDict [("x", VNone)]])
  /\ exists xs,
      VList [VDict [("x", VNone)]] = VList xs
      /\ forallb is_mapping xs = true
      /\ forallb is_record xs = true.
Proof.
  split; [reflexivity |].
  destruct (normalize_returns_sequence Demo.runtime (VStr "votes.csv")
              (VList [VDict [("x", VNone)]]) eq_refl)
    as (xs & E & Hm & Hr).
  exists xs. repeat split.
  - exact E.
  - apply Hm. reflexivity.
  - apply Hr; reflexivity.
Defined.

(** C3, as the specification states it, fails on a list whose elements are
    not mappings: the list [[1]] is accepted and comes back as it is. *)
Lemma normalize_passes_any_list :
  GrandJuryClient._parse_input Demo.runtime (VList [VInt 1])
  = Ok (VList [VInt 1])
  /\ is_record_sequence (VList [VInt 1]) = false
  /\ ~ (forall (rt : Runtime) (data out : value),
          GrandJuryClient._parse_input rt data = Ok out ->
          is_record_sequence out = true).
Proof.
  repeat split.
  intros H.
  specialize (H Demo.runtime (VList [VInt 1]) (VList [VInt 1]) eq_refl).
  discriminate.
Qed.

(** ** Blank lines and empty cells *)

(** The reader yields an empty row for the empty line, and [DictReader]
    passes over it. *)
Example reader_votes_csv :
  Csv.reader Demo.votes_csv = [Ok ["x"]; Ok ["None"]; Ok []]
  /\ Csv.DictReader Demo.votes_csv
     = [Ok {| Csv.items := [("x", Some "None")];
              Csv.restkey_value := None |}].
Proof. split; reflexivity. Qed.

Lemma parse_input_csv_plain (rt : Runtime) (path f : string) :
  HAS_PANDAS rt = false ->
  csv_path (VStr path) = true ->
  open_text rt path = Ok f ->
  GrandJuryClient._parse_input rt (VStr path)
  = rmap GrandJuryClient.records_value
      (GrandJuryClient.process_rows rt (Csv.DictReader f) []).
Proof.
  intros Hp Hcsv Hf. unfold csv_path in Hcsv.
  unfold GrandJuryClient._parse_input, GrandJuryClient._parse_csv.
  now rewrite Hcsv, Hp, Hf.
Qed.

(** C9, as the code has it.  Read by the plain-text parser, the CSV text
    made of the header [x], the row [None] and an empty line gives exactly
    one Record, [{x: null}], for the [None] row: the empty line gives none.
    A row whose cell is the empty text, written as a quoted empty cell,
    does give a second [{x: null}]. *)
Theorem csv_none_row_and_blank_line :
  forall (rt : Runtime) (path : string),
    HAS_PANDAS rt = false ->
    csv_path (VStr path) = true ->
    (open_text rt path = Ok Demo.votes_csv ->
     GrandJuryClient._parse_input rt (VStr path)
     = Ok (VList [VDict [("x", VNone)]]))
    /\ (open_text rt path = Ok Demo.cells_csv ->
        GrandJuryClient._parse_input rt (VStr path)
        = Ok (VList [VDict [("x", VNone)]; VDict [("x", VNone)]])).
Proof.
  intros rt path Hp Hcsv. split; intros Hf.
  - rewrite (parse_input_csv_plain rt path _ Hp Hcsv Hf). reflexivity.
  - rewrite (parse_input_csv_plain rt path _ Hp Hcsv Hf). reflexivity.
Qed.

Lemma csv_none_row_and_blank_line_witness :
  GrandJuryClient._parse_input Demo.runtime (VStr "votes.csv")
  = Ok (VList [VDict [("x", VNone)]])
  /\ GrandJuryClient._parse_input Demo.runtime (VStr "cells.csv")
     = Ok (VList [VDict [("x", VNone)]; VDict [("x", VNone)]]).
Proof.
  split.
  - apply (proj1 (csv_none_row_and_blank_line Demo.runtime "votes.csv"
                    eq_refl eq_refl)).
    reflexivity.
  - apply (proj2 (csv_none_row_and_blank_line Demo.runtime "cells.csv"
                    eq_refl eq_refl)).
    reflexivity.
Defined.

(** C9, as the specification states it, asks for a Record for the empty
    line as well; the file holding exactly that text gives one Record, not
    two. *)
Lemma csv_blank_line_gives_no_record :
  open_text Demo.runtime "votes.csv"
  = Ok (String "x" (String Csv.LF ("None" ++ String Csv.LF (String Csv.LF ""))))
  /\ GrandJuryClient._parse_input Demo.runtime (VStr "votes.csv")
     = Ok (VList [VDict [("x", VNone)]])
  /\ GrandJuryClient._parse_input Demo.runtime (VStr "votes.csv")
     <> Ok (VList [VDict [("x", VNone)]; VDict [("x", VNone)]]).
Proof. repeat split. discriminate. Qed.

(** ** The evaluate operation and the backward-compatible function *)

(** The payload of the evaluate operation once its defaults are filled in. *)
Lemma evaluate_model_dispatches (rt : Runtime)
  (previous_score previous_timestamp votes reputations stamp : value)
  (w : World) :
  (if is_None previous_timestamp
   then rmap (fun t => VStr (Datetime.isoformat t))
             (Datetime.sub_hours (now rt) 1)
   else Ok previous_timestamp) = Ok stamp ->
  GrandJuryClient.evaluate_model rt previous_score previous_timestamp
    votes reputations w
  = GrandJuryClient._make_request rt "evaluate"
      (VDict [("previous_score", previous_score);
              ("previous_timestamp", stamp);
              ("votes", if is_None votes then VList [] else votes);
              ("reputations",
               if is_None reputations then VList [] else reputations)])
      w.
Proof.
  intros Hstamp.
  unfold GrandJuryClient.evaluate_model, bind at 1.
  destruct (is_None previous_timestamp).
  - unfold bind at 1, lift, ret.
    destruct (Datetime.sub_hours (now rt) 1) as [t|e]; simpl in Hstamp;
      [| discriminate].
    now injection Hstamp as <-.
  - unfold ret. now injection Hstamp as <-.
Qed.

Lemma agreement_votes_length (rt : Runtime) (ps rs : list value) :
  List.length (agreement_votes rt ps rs)
  = Nat.min (List.length ps) (List.length rs).
Proof.
  unfold agreement_votes. now rewrite length_map, length_combine.
Qed.

Lemma agreement_votes_nth (rt : Runtime) (ps rs : list value) :
  forall (i : nat) (p r : value),
    nth_error ps i = Some p ->
    nth_error rs i = Some r ->
    nth_error (agreement_votes rt ps rs) i
    = Some (VFloat (if py_eq rt p r then 1%float else 0%float)).
Proof.
  unfold agreement_votes.
  revert rs. induction ps as [|p0 ps IH]; intros [|r0 rs] [|i] p r Hp Hr;
    simpl in *; try discriminate.
  - injection Hp as <-. injection Hr as <-.
    now destruct (py_eq rt p0 r0).
  - now apply IH.
Qed.

Lemma legacy_delegates (rt : Runtime) (ps rs : list value)
  (key : option string) (net : list request) :
  evaluate_model rt (VList ps) (VList rs) key net
  = evaluate_call rt key
      (VList (agreement_votes rt ps rs))
      (VList (repeat (VFloat 1%float)
                     (List.length (agreement_votes rt ps rs))))
      net.
Proof.
  unfold evaluate_model, evaluate_call, call, bind, ret.
  destruct (GrandJuryClient.evaluate_model rt _ _ _ _ _) as [[a|e] w];
    reflexivity.
Qed.

Lemma float_one_is_not_zero : 1%float <> 0%float.
Proof.
  intros H. apply (f_equal (fun x => PrimFloat.eqb x 1%float)) in H.
  vm_compute in H. discriminate.
Qed.

(** C7.  For prediction and reference lists of equal length, the vote at
    each position is 1.0 when the prediction equals the reference there and
    0.0 when it does not, there is one vote per position and one reputation
    1.0 per vote, and the function is the evaluate operation called with
    those votes and reputations. *)
Theorem legacy_votes_and_reputations :
  forall (rt : Runtime) (ps rs : list value) (key : option string)
         (net : list request),
    List.length ps = List.length rs ->
    exists votes reputations,
      evaluate_model rt (VList ps) (VList rs) key net
      = evaluate_call rt key (VList votes) (VList reputations) net
      /\ List.length votes = List.length ps
      /\ (forall i p r,
             nth_error ps i = Some p -> nth_error rs i = Some r ->
             (py_eq rt p r = true -> nth_error votes i = Some (VFloat 1%float))
             /\ (py_eq rt p r = false ->
                 nth_error votes i = Some (VFloat 0%float)))
      /\ reputations = repeat (VFloat 1%float) (List.length ps).
Proof.
  intros rt ps rs key net Hlen.
  exists (agreement_votes rt ps rs),
         (repeat (VFloat 1%float) (List.length (agreement_votes rt ps rs))).
  repeat split.
  - apply legacy_delegates.
  - rewrite agreement_votes_length, <- Hlen. apply Nat.min_id.
  - intros E. rewrite (agreement_votes_nth rt ps rs i p r H H0). now rewrite E.
  - intros E. rewrite (agreement_votes_nth rt ps rs i p r H H0). now rewrite E.
  - rewrite agreement_votes_length, <- Hlen. now rewrite Nat.min_id.
Qed.

(** The scenario of the specification: predictions [a, b] against
    references [a, c]. *)
Example legacy_a_b_against_a_c :
  agreement_votes Demo.runtime [VStr "a"; VStr "b"] [VStr "a"; VStr "c"]
  = [VFloat 1%float; VFloat 0%float]
  /\ evaluate_model Demo.runtime (VList [VStr "a"; VStr "b"])
       (VList [VStr "a"; VStr "c"]) None []
     = evaluate_call Demo.runtime None
         (VList [VFloat 1%float; VFloat 0%float])
         (VList [VFloat 1%float; VFloat 1%float]) [].
Proof. split; reflexivity. Qed.

Lemma legacy_votes_and_reputations_witness :
  exists votes reputations,
    evaluate_model Demo.runtime (VList [VStr "a"; VStr "b"])
      (VList [VStr "a"; VStr "c"]) None []
    = evaluate_call Demo.runtime None (VList votes) (VList reputations) []
    /\ List.length votes = 2%nat
    /\ (forall i p r,
           nth_error [VStr "a"; VStr "b"] i = Some p ->
           nth_error [VStr "a"; VStr "c"] i = Some r ->
           (Demo.eq p r = true -> nth_error votes i = Some (VFloat 1%float))
           /\ (Demo.eq p r = false ->
               nth_error votes i = Some (VFloat 0%float)))
    /\ reputations = [VFloat 1%float; VFloat 1%float].
Proof.
  exact (legacy_votes_and_reputations Demo.runtime
           [VStr "a"; VStr "b"] [VStr "a"; VStr "c"] None [] eq_refl).
Defined.

(** C10.  For lists of different lengths the votes stop with the shorter
    list: there are as many votes, and as many reputations, as the shorter
    list has elements, each vote compares the elements at its position, and
    the function is still the evaluate operation called with them, so the
    mismatch itself raises nothing. *)
Theorem legacy_truncates_to_shorter :
  forall (rt : Runtime) (ps rs : list value) (key : option string)
         (net : list request),
    List.length ps <> List.length rs ->
    exists votes reputations,
      evaluate_model rt (VList ps) (VList rs) key net
      = evaluate_call rt key (VList votes) (VList reputations) net
      /\ List.length votes = Nat.min (List.length ps) (List.length rs)
      /\ List.length reputations = Nat.min (List.length ps) (List.length rs)
      /\ (forall i p r,
             nth_error ps i = Some p -> nth_error rs i = Some r ->
             nth_error votes i
             = Some (VFloat (if py_eq rt p r then 1%float else 0%float))).
Proof.
  intros rt ps rs key net _.
  exists (agreement_votes rt ps rs),
         (repeat (VFloat 1%float) (List.length (agreement_votes rt ps rs))).
  repeat split.
  - apply legacy_delegates.
  - apply agreement_votes_length.
  - rewrite repeat_length. apply agreement_votes_length.
  - apply agreement_votes_nth.
Qed.

Lemma legacy_truncates_to_shorter_witness :
  exists votes reputations,
    evaluate_model Demo.runtime (VList [VStr "a"; VStr "b"; VStr "c"])
      (VList [VStr "a"]) None []
    = evaluate_call Demo.runtime None (VList votes) (VList reputations) []
    /\ List.length votes = 1%nat
    /\ List.length reputations = 1%nat
    /\ (forall i p r,
           nth_error [VStr "a"; VStr "b"; VStr "c"] i = Some p ->
           nth_error [VStr "a"] i = Some r ->
           nth_error votes i
           = Some (VFloat (if Demo.eq p r then 1%float else 0%float))).
Proof.
  apply (legacy_truncates_to_shorter Demo.runtime
           [VStr "a"; VStr "b"; VStr "c"] [VStr "a"] None []).
  discriminate.
Defined.

(** The request that goes out for lists of lengths three and one. *)
Example legacy_three_against_one :
  evaluate_model Demo.runtime (VList [VStr "a"; VStr "b"; VStr "c"])
    (VList [VStr "a"]) None []
  = (Ok VNone,
     [Demo.request_of "evaluate"
        (VDict [("previous_score", VFloat 0%float);
                ("previous_timestamp", VStr "2024-02-29T23:30:05");
                ("votes", VList [VFloat 1%float]);
                ("reputations", VList [VFloat 1%float])])]).
Proof. vm_compute. reflexivity. Qed.

(** ** The calendar

    The ordinal of a date and the date of an ordinal are inverse to each
    other over the whole range of [datetime], so subtracting an hour moves
    a date-time back by 3600 seconds exactly. *)

Local Open Scope Z_scope.

Lemma all_from_spec (f : Z -> bool) (p : positive) :
  forall base, all_from f base p = true ->
  forall n, (base <= n < base + Zpos p)%Z -> f n = true.
Proof.
  induction p as [p IH | p IH |]; intros base H n Hn; simpl in H.
  - apply andb_prop in H as [H H2]. apply andb_prop in H as [H0 H1].
    destruct (Z.eq_dec n base) as [-> | Hne]; [exact H0 |].
    destruct (Z_lt_le_dec n (base + 1 + Zpos p)) as [Hlt | Hge].
    + apply (IH (base + 1)%Z H1). lia.
    + apply (IH (base + 1 + Zpos p)%Z H2). lia.
  - apply andb_prop in H as [H1 H2].
    destruct (Z_lt_le_dec n (base + Zpos p)) as [Hlt | Hge].
    + apply (IH base H1). lia.
    + apply (IH (base + Zpos p)%Z H2). lia.
  - assert (n = base) by lia. now subst.
Qed.

Lemma month_day_common : all_from (month_day_ok false) 0 365 = true.
Proof. vm_compute. reflexivity. Qed.

Lemma month_day_leap : all_from (month_day_ok true) 0 366 = true.
Proof. vm_compute. reflexivity. Qed.

Lemma days_before_year_cycles (n400 n100 n4 n1 : Z) :
  0 <= n400 -> 0 <= n100 <= 3 -> 0 <= n4 <= 24 -> 0 <= n1 <= 3 ->
  Datetime._days_before_year (n400 * 400 + 1 + n100 * 100 + n4 * 4 + n1)
  = 146097 * n400 + 36524 * n100 + 1461 * n4 + 365 * n1.
Proof.
  intros. unfold Datetime._days_before_year.
  Z.div_mod_to_equations. lia.
Qed.

Lemma is_leap_cycles (n400 n100 n4 n1 : Z) :
  0 <= n400 -> 0 <= n100 <= 3 -> 0 <= n4 <= 24 -> 0 <= n1 <= 3 ->
  Datetime._is_leap (n400 * 400 + 1 + n100 * 100 + n4 * 4 + n1)
  = (n1 =? 3) && (negb (n4 =? 24) || (n100 =? 3)).
Proof.
  intros. unfold Datetime._is_leap.
  destruct (Z.eqb_spec n1 3), (Z.eqb_spec n4 24), (Z.eqb_spec n100 3);
    cbn [negb andb orb];
    repeat match goal with
      | |- context [?a mod ?b =? 0] => destruct (Z.eqb_spec (a mod b) 0)
      end; cbn [negb andb orb]; try reflexivity;
    exfalso; Z.div_mod_to_equations; lia.
Qed.

Lemma ord2ymd_unfold (n : Z) :
  Datetime._ord2ymd n
  = (let n0 := n - 1 in
     let n400 := n0 / 146097 in let r400 := n0 mod 146097 in
     let n100 := r400 / 36524 in let r100 := r400 mod 36524 in
     let n4 := r100 / 1461 in let r4 := r100 mod 1461 in
     let n1 := r4 / 365 in let r1 := r4 mod 365 in
     let y := n400 * 400 + 1 + n100 * 100 + n4 * 4 + n1 in
     if (n1 =? 4) || (n100 =? 4) then (y - 1, 12, 31)
     else
       let md := month_day r1 ((n1 =? 3) && (negb (n4 =? 24) || (n100 =? 3)))
       in (y, fst md, snd md)).
Proof.
  unfold Datetime._ord2ymd, month_day,
    Datetime._DI400Y, Datetime._DI100Y, Datetime._DI4Y.
  cbv zeta.
  destruct (_ || _); [reflexivity |].
  destruct (_ <? _); reflexivity.
Qed.

Lemma month_day_sound (leapyear : bool) (n : Z) :
  0 <= n < (if leapyear then 366 else 365) ->
  month_day_ok leapyear n = true.
Proof.
  intros Hn. destruct leapyear.
  - apply (all_from_spec _ _ _ month_day_leap). lia.
  - apply (all_from_spec _ _ _ month_day_common). lia.
Qed.

Lemma december_31 (y : Z) :
  Datetime._days_before_month y 12 + 31
  = (if Datetime._is_leap y then 366 else 365)
  /\ Datetime._days_in_month y 12 = 31.
Proof.
  unfold Datetime._days_before_month, Datetime._days_in_month.
  destruct (Datetime._is_leap y); split; reflexivity.
Qed.

Lemma ord2ymd_sound (n : Z) :
  1 <= n <= Datetime._MAXORDINAL -> ordinal_sound n (Datetime._ord2ymd n).
Proof.
  unfold Datetime._MAXORDINAL. intros Hn.
  rewrite ord2ymd_unfold. cbv zeta.
  remember ((n - 1) / 146097) as n400 eqn:E1.
  remember ((n - 1) mod 146097) as r400 eqn:E2.
  remember (r400 / 36524) as n100 eqn:E3.
  remember (r400 mod 36524) as r100 eqn:E4.
  remember (r100 / 1461) as n4 eqn:E5.
  remember (r100 mod 1461) as r4 eqn:E6.
  remember (r4 / 365) as n1 eqn:E7.
  remember (r4 mod 365) as r1 eqn:E8.
  assert (F1 : n - 1 = 146097 * n400 + r400 /\ 0 <= r400 < 146097)
    by (subst n400 r400; Z.div_mod_to_equations; lia).
  assert (F2 : r400 = 36524 * n100 + r100 /\ 0 <= r100 < 36524)
    by (subst n100 r100; Z.div_mod_to_equations; lia).
  assert (F3 : r100 = 1461 * n4 + r4 /\ 0 <= r4 < 1461)
    by (subst n4 r4; Z.div_mod_to_equations; lia).
  assert (F4 : r4 = 365 * n1 + r1 /\ 0 <= r1 < 365)
    by (subst n1 r1; Z.div_mod_to_equations; lia).
  clear E1 E2 E3 E4 E5 E6 E7 E8.
  destruct F1 as [F1 B1], F2 as [F2 B2], F3 as [F3 B3], F4 as [F4 B4].
  assert (Hn400 : 0 <= n400 <= 24) by lia.
  assert (Hn100 : 0 <= n100 <= 4) by lia.
  assert (Hn4 : 0 <= n4 <= 24) by lia.
  assert (Hn1 : 0 <= n1 <= 4) by lia.
  destruct (Z.eqb_spec n100 4) as [H100 | H100].
  - (* the last day of a 400-year cycle *)
    rewrite orb_true_r. unfold ordinal_sound, Datetime._ymd2ord.
    assert (n4 = 0 /\ n1 = 0 /\ r1 = 0) as (-> & -> & ->) by lia. subst n100.
    replace (n400 * 400 + 1 + 4 * 100 + 0 * 4 + 0 - 1)
      with (n400 * 400 + 1 + 3 * 100 + 24 * 4 + 3) by lia.
    destruct (december_31 (n400 * 400 + 1 + 3 * 100 + 24 * 4 + 3))
      as [Hdec ->].
    rewrite is_leap_cycles in Hdec by lia.
    rewrite days_before_year_cycles by lia.
    change ((3 =? 3) && (negb (24 =? 24) || (3 =? 3))) with true in Hdec.
    cbv iota in Hdec. lia.
  - destruct (Z.eqb_spec n1 4) as [H1 | H1].
    + (* the last day of a leap year *)
      cbn [orb]. unfold ordinal_sound, Datetime._ymd2ord.
      subst n1.
      replace (n400 * 400 + 1 + n100 * 100 + n4 * 4 + 4 - 1)
        with (n400 * 400 + 1 + n100 * 100 + n4 * 4 + 3) by lia.
      destruct (december_31 (n400 * 400 + 1 + n100 * 100 + n4 * 4 + 3))
        as [Hdec ->].
      rewrite is_leap_cycles in Hdec by lia.
      rewrite days_before_year_cycles by lia.
      destruct (Z.eqb_spec n4 24) as [H4 | H4]; [lia |].
      change ((3 =? 3) && (negb false || (n100 =? 3))) with true in Hdec.
      cbv iota in Hdec. lia.
    + cbn [orb].
      set (leapyear := (n1 =? 3) && (negb (n4 =? 24) || (n100 =? 3))).
      assert (Hmd : month_day_ok leapyear r1 = true).
      { apply month_day_sound. destruct leapyear; lia. }
      unfold month_day_ok in Hmd.
      destruct (month_day r1 leapyear) as [m d]. cbn [fst snd].
      unfold ordinal_sound, Datetime._ymd2ord,
        Datetime._days_before_month, Datetime._days_in_month.
      rewrite days_before_year_cycles, is_leap_cycles by lia.
      fold leapyear.
      repeat (apply andb_prop in Hmd as [Hmd ?]).
      repeat match goal with
        | H : (_ =? _) = true |- _ => apply Z.eqb_eq in H
        | H : (_ <=? _) = true |- _ => apply Z.leb_le in H
        end.
      lia.
Qed.

Lemma month_tables (m : Z) :
  1 <= m <= 12 ->
  (m = 1 /\ nth (Z.to_nat m) Datetime._DAYS_BEFORE_MONTH 0 = 0
   /\ nth (Z.to_nat m) Datetime._DAYS_IN_MONTH 0 = 31)
  \/ (m = 2 /\ nth (Z.to_nat m) Datetime._DAYS_BEFORE_MONTH 0 = 31
      /\ nth (Z.to_nat m) Datetime._DAYS_IN_MONTH 0 = 28)
  \/ (2 < m
      /\ 59 <= nth (Z.to_nat m) Datetime._DAYS_BEFORE_MONTH 0
      /\ 30 <= nth (Z.to_nat m) Datetime._DAYS_IN_MONTH 0
      /\ nth (Z.to_nat m) Datetime._DAYS_BEFORE_MONTH 0
         + nth (Z.to_nat m) Datetime._DAYS_IN_MONTH 0 <= 365).
Proof.
  intros Hm.
  assert (H : m = 1 \/ m = 2 \/ m = 3 \/ m = 4 \/ m = 5 \/ m = 6 \/ m = 7
              \/ m = 8 \/ m = 9 \/ m = 10 \/ m = 11 \/ m = 12) by lia.
  repeat (destruct H as [-> | H]); try subst m;
    [left | right; left | right; right ..];
    (repeat split; try reflexivity; vm_compute; discriminate).
Qed.

Lemma day_of_year_range (y m d : Z) :
  1 <= m <= 12 ->
  1 <= d <= Datetime._days_in_month y m ->
  1 <= Datetime._days_before_month y m + d
    <= (if Datetime._is_leap y then 366 else 365).
Proof.
  unfold Datetime._days_before_month, Datetime._days_in_month.
  intros Hm Hd.
  destruct (month_tables m Hm) as [(-> & -> & E) | [(-> & -> & E) | (H2 & ? & ? & ?)]].
  - change (2 <? 1) with false. change (1 =? 2) with false in Hd.
    cbn [andb] in *. rewrite E in Hd. destruct (Datetime._is_leap y); lia.
  - change (2 <? 2) with false. change (2 =? 2) with true in Hd.
    cbn [andb] in *. rewrite E in Hd. destruct (Datetime._is_leap y); lia.
  - destruct (Z.ltb_spec 2 m); [| lia].
    destruct (Z.eqb_spec m 2); [lia |].
    cbn [andb] in *. destruct (Datetime._is_leap y); lia.
Qed.

Lemma toordinal_range (dt : Datetime.datetime) :
  Datetime.valid dt = true ->
  1 <= Datetime.toordinal dt <= Datetime._MAXORDINAL.
Proof.
  unfold Datetime.valid, Datetime.toordinal, Datetime._ymd2ord,
    Datetime._MAXORDINAL.
  intros H. repeat (apply andb_prop in H as [H ?]).
  repeat match goal with
    | H : (_ <=? _) = true |- _ => apply Z.leb_le in H
    | H : (_ <? _) = true |- _ => apply Z.ltb_lt in H
    end.
  pose proof (day_of_year_range (Datetime.year dt) (Datetime.month dt)
                (Datetime.day dt) ltac:(lia) ltac:(lia)) as Hdoy.
  set (y := Datetime.year dt) in *.
  remember ((y - 1) / 400) as n400 eqn:E1.
  remember ((y - 1) mod 400) as r400 eqn:E2.
  remember (r400 / 100) as n100 eqn:E3.
  remember (r400 mod 100) as r100 eqn:E4.
  remember (r100 / 4) as n4 eqn:E5.
  remember (r100 mod 4) as n1 eqn:E6.
  assert (F : y = n400 * 400 + 1 + n100 * 100 + n4 * 4 + n1
              /\ 0 <= n400 <= 24 /\ 0 <= n100 <= 3 /\ 0 <= n4 <= 24
              /\ 0 <= n1 <= 3)
    by (subst n400 r400 n100 r100 n4 n1; Z.div_mod_to_equations; lia).
  clear E1 E2 E3 E4 E5 E6.
  destruct F as (Hy & ? & ? & ? & ?).
  rewrite Hy in Hdoy |- *.
  rewrite days_before_year_cycles by lia.
  rewrite is_leap_cycles in Hdoy by lia.
  destruct (Z.eqb_spec n1 3), (Z.eqb_spec n4 24), (Z.eqb_spec n100 3);
    cbn [andb orb negb] in Hdoy; lia.
Qed.

(** One hour before a date-time that is at least an hour after the first
    one there is: the subtraction succeeds, and its result is a date-time
    exactly 3600 seconds earlier. *)
Lemma sub_hours_sound (dt : Datetime.datetime) :
  Datetime.valid dt = true ->
  Datetime.to_microseconds Datetime.datetime_min + hour_us
    <= Datetime.to_microseconds dt ->
  exists t,
    Datetime.sub_hours dt 1 = Ok t
    /\ Datetime.valid t = true
    /\ Datetime.to_microseconds t = Datetime.to_microseconds dt - hour_us.
Proof.
  intros Hvalid Hmin.
  pose proof (toordinal_range dt Hvalid) as Hord.
  unfold Datetime._MAXORDINAL in Hord.
  change (Datetime.to_microseconds Datetime.datetime_min) with 86400000000
    in Hmin.
  unfold hour_us in *.
  assert (Htod : 0 <= Datetime.to_microseconds dt
                      - Datetime.toordinal dt * 86400000000 < 86400000000).
  { unfold Datetime.valid in Hvalid.
    repeat (apply andb_prop in Hvalid as [Hvalid ?]).
    repeat match goal with
      | H : (_ <=? _) = true |- _ => apply Z.leb_le in H
      | H : (_ <? _) = true |- _ => apply Z.ltb_lt in H
      end.
    unfold Datetime.to_microseconds. lia. }
  unfold Datetime.sub_hours.
  set (total := Datetime.to_microseconds dt - 1 * 3600 * 1000000) in *.
  remember (total / 86400000000) as days eqn:E1.
  remember (total mod 86400000000) as rest eqn:E2.
  remember (rest / 1000000) as seconds eqn:E3.
  remember (rest mod 1000000) as us eqn:E4.
  remember (seconds / 3600) as hh eqn:E5.
  remember (seconds mod 3600) as rem eqn:E6.
  remember (rem / 60) as mm eqn:E7.
  remember (rem mod 60) as ss eqn:E8.
  assert (F : total = ((days * 86400 + hh * 3600 + mm * 60 + ss) * 1000000) + us
              /\ 1 <= days <= 3652059
              /\ 0 <= hh < 24 /\ 0 <= mm < 60 /\ 0 <= ss < 60
              /\ 0 <= us < 1000000).
  { subst days rest seconds us hh rem mm ss. subst total.
    Z.div_mod_to_equations. lia. }
  clear E1 E2 E3 E4 E5 E6 E7 E8.
  destruct F as (Htotal & Hdays & Hhh & Hmm & Hss & Hus).
  destruct (Z.ltb_spec 0 days); [| lia].
  unfold Datetime._MAXORDINAL.
  destruct (Z.leb_spec days 3652059); [| lia].
  cbn [andb].
  pose proof (ord2ymd_sound days ltac:(unfold Datetime._MAXORDINAL; lia))
    as Hsound.
  destruct (Datetime._ord2ymd days) as [[y m] d].
  destruct Hsound as (Hymd & Hy & Hm & Hd).
  eexists. split; [reflexivity |]. split.
  - unfold Datetime.valid; cbn.
    repeat (apply andb_true_intro; split);
      first [apply Z.leb_le | apply Z.ltb_lt]; lia.
  - unfold Datetime.to_microseconds, Datetime.toordinal; cbn.
    rewrite Hymd. subst total.
    unfold Datetime.to_microseconds, Datetime.toordinal in Htotal. lia.
Qed.

(** C8.  With a clock that reads a date-time at least an hour after the
    first one there is, the evaluate operation dispatches to the [evaluate]
    endpoint a payload in which [votes] is the empty list when the votes are
    unset, [reputations] is the empty list when the reputations are unset,
    and, when the previous timestamp is unset, [previous_timestamp] is the
    [isoformat] text of the date-time 3600 seconds before the clock's. *)
Theorem evaluate_fills_defaults :
  forall (rt : Runtime)
         (previous_score previous_timestamp votes reputations : value)
         (w : World),
    Datetime.valid (now rt) = true ->
    Datetime.to_microseconds Datetime.datetime_min + hour_us
      <= Datetime.to_microseconds (now rt) ->
    exists payload,
      GrandJuryClient.evaluate_model rt previous_score previous_timestamp
        votes reputations w
      = GrandJuryClient._make_request rt "evaluate" (VDict payload) w
      /\ (votes = VNone -> dict_get payload "votes" = Some (VList []))
      /\ (reputations = VNone ->
          dict_get payload "reputations" = Some (VList []))
      /\ (previous_timestamp = VNone ->
          exists t,
            Datetime.valid t = true
            /\ Datetime.to_microseconds t
               = Datetime.to_microseconds (now rt) - hour_us
            /\ dict_get payload "previous_timestamp"
               = Some (VStr (Datetime.isoformat t))).
Proof.
  intros rt previous_score previous_timestamp votes reputations w Hvalid Hmin.
  destruct (sub_hours_sound (now rt) Hvalid Hmin) as (t & Hsub & Ht & Hus).
  exists [("previous_score", previous_score);
          ("previous_timestamp",
           if is_None previous_timestamp then VStr (Datetime.isoformat t)
           else previous_timestamp);
          ("votes", if is_None votes then VList [] else votes);
          ("reputations",
           if is_None reputations then VList [] else reputations)].
  split; [| split; [| split]].
  - apply evaluate_model_dispatches. rewrite Hsub.
    now destruct (is_None previous_timestamp).
  - intros ->. reflexivity.
  - intros ->. reflexivity.
  - intros ->. exists t. repeat split; assumption || reflexivity.
Qed.

Lemma evaluate_fills_defaults_witness :
  exists payload,
    GrandJuryClient.evaluate_model Demo.runtime (VFloat 0%float) VNone VNone
      VNone Demo.world
    = GrandJuryClient._make_request Demo.runtime "evaluate" (VDict payload)
        Demo.world
    /\ (VNone = VNone -> dict_get payload "votes" = Some (VList []))
    /\ (VNone = VNone -> dict_get payload "reputations" = Some (VList []))
    /\ (VNone = VNone ->
        exists t,
          Datetime.valid t = true
          /\ Datetime.to_microseconds t
             = Datetime.to_microseconds Demo.clock - hour_us
          /\ dict_get payload "previous_timestamp"
             = Some (VStr (Datetime.isoformat t))).
Proof.
  apply (evaluate_fills_defaults Demo.runtime (VFloat 0%float) VNone VNone
           VNone Demo.world).
  - reflexivity.
  - vm_compute. discriminate.
Defined.

(** The request that goes out from the concrete runtime, whose clock reads
    half past midnight on the first of March of a leap year. *)
Example evaluate_defaults_on_the_wire :
  GrandJuryClient.evaluate_model Demo.runtime (VFloat 0%float) VNone VNone
    VNone Demo.world
  = (Ok VNone,
     {| self := self Demo.world;
        wire := [Demo.request_of "evaluate"
                   (VDict [("previous_score", VFloat 0%float);
                           ("previous_timestamp", VStr "2024-02-29T23:30:05");
                           ("votes", VList []);
                           ("reputations", VList [])])] |}).
Proof. vm_compute. reflexivity. Qed.

(** [isoformat] prints the microseconds only when there are some. *)
Example isoformat_with_microseconds :
  Datetime.isoformat
    {| Datetime.year := 987; Datetime.month := 6; Datetime.day := 5;
       Datetime.hour := 4; Datetime.minute := 3; Datetime.second := 2;
       Datetime.microsecond := 1500 |}
  = "0987-06-05T04:03:02.001500"%string.
Proof. reflexivity. Qed.

(** Before the first hour of the calendar the subtraction overflows. *)
Example sub_hours_before_the_calendar :
  Datetime.sub_hours Datetime.datetime_min 1
  = Raise (OverflowError "date value out of range").
Proof. reflexivity. Qed.

Local Close Scope Z_scope.

(** * Further properties of the client *)

(** ** What goes on the wire *)

(** The two ways a dispatch can go: the msgspec encoder raises and nothing
    is sent, or the request built for the payload is sent and the answer
    decides the result. *)
Lemma make_request_cases (rt : Runtime) (endpoint : string) (payload : value)
  (w : World) :
  (exists e, GrandJuryClient._make_request rt endpoint payload w = (Raise e, w))
  \/ (exists rq,
         request_for rt (self w) endpoint payload rq
         /\ snd (GrandJuryClient._make_request rt endpoint payload w)
            = {| self := self w; wire := (wire w ++ [rq])%list |}).
Proof.
  unfold GrandJuryClient._make_request, bind, get, lift, raise, post,
    request_for.
  destruct (HAS_MSGSPEC rt) eqn:Hm.
  - destruct (msgspec_encode rt payload) as [js|e] eqn:Hjs.
    + right.
      exists {| req_url := base_url (self w) ++ "/" ++ Str.lstrip "/" endpoint;
                req_body := DataText js;
                req_headers := GrandJuryClient._get_headers (self w) |}.
      cbn [req_url req_body req_headers].
      split; [repeat split; eauto |].
      destruct (requests_post rt _) as [resp|e]; cbn; [| reflexivity].
      now destruct (status_code resp =? 200)%Z.
    + left. exists e. destruct w. reflexivity.
  - right.
    exists {| req_url := base_url (self w) ++ "/" ++ Str.lstrip "/" endpoint;
              req_body := JsonValue payload;
              req_headers := GrandJuryClient._get_headers (self w) |}.
    cbn [req_url req_body req_headers].
    split; [repeat split |].
    destruct (requests_post rt _) as [resp|e]; cbn; [| reflexivity].
    now destruct (status_code resp =? 200)%Z.
Qed.

(** An operation either leaves the world as it is, or is one dispatch. *)
Lemma perform_cases (rt : Runtime) (op : operation) (w : World) :
  snd (perform rt op w) = w
  \/ exists endpoint payload,
      perform rt op w = GrandJuryClient._make_request rt endpoint payload w.
Proof.
  destruct op; cbn [perform].
  - right. do 2 eexists. reflexivity.
  - left. reflexivity.
  - unfold GrandJuryClient.evaluate_model, bind at 1.
    destruct (is_None previous_timestamp).
    + unfold bind at 1, lift, ret.
      destruct (Datetime.sub_hours (now rt) 1);
        [right; do 2 eexists; reflexivity | left; reflexivity].
    + unfold ret. right. do 2 eexists. reflexivity.
  - unfold GrandJuryClient.vote_histogram, bind at 1, lift.
    destruct (GrandJuryClient._parse_input rt data);
      [right; do 2 eexists; reflexivity | left; reflexivity].
  - unfold GrandJuryClient.vote_completeness, bind at 1, lift.
    destruct (GrandJuryClient._parse_input rt data);
      [right; do 2 eexists; reflexivity | left; reflexivity].
  - unfold GrandJuryClient.population_confidence, bind at 1, lift.
    destruct (GrandJuryClient._parse_input rt data);
      [right; do 2 eexists; reflexivity | left; reflexivity].
  - unfold GrandJuryClient.majority_good_votes, bind at 1, lift.
    destruct (GrandJuryClient._parse_input rt data);
      [right; do 2 eexists; reflexivity | left; reflexivity].
  - unfold GrandJuryClient.votes_distribution, bind at 1, lift.
    destruct (GrandJuryClient._parse_input rt data);
      [right; do 2 eexists; reflexivity | left; reflexivity].
Qed.

(** What an operation adds to the wire: nothing, or the one request built
    for some endpoint and payload. *)
Lemma perform_wire (rt : Runtime) (op : operation) (w : World) :
  wire (snd (perform rt op w)) = wire w
  \/ exists endpoint payload rq,
      request_for rt (self w) endpoint payload rq
      /\ wire (snd (perform rt op w)) = (wire w ++ [rq])%list.
Proof.
  destruct (perform_cases rt op w) as [H | (endpoint & payload & H)].
  - left. now rewrite H.
  - rewrite H.
    destruct (make_request_cases rt endpoint payload w) as [[e He] | (rq & Hrq & Hw)].
    + left. now rewrite He.
    + right. exists endpoint, payload, rq. split; [exact Hrq |].
      now rewrite Hw.
Qed.

(** X1.  A sequence of operations only ever appends to the wire, and at
    most one request per operation: the requests sent before are still
    there, in order, followed by at most as many new ones as there were
    operations. *)
Theorem at_most_one_request_per_operation :
  forall (rt : Runtime) (ops : list operation) (w : World),
    exists sent,
      wire (perform_all rt ops w) = (wire w ++ sent)%list
      /\ (List.length sent <= List.length ops)%nat.
Proof.
  intros rt ops. unfold perform_all.
  induction ops as [|op ops IH]; intros w; cbn [fold_left].
  - exists []. split; [now rewrite app_nil_r | apply Nat.le_refl].
  - destruct (IH (snd (perform rt op w))) as (sent & Hsent & Hlen).
    destruct (perform_wire rt op w) as [H | (endpoint & payload & rq & _ & H)].
    + exists sent. rewrite Hsent, H. split; [reflexivity |].
      cbn [List.length]. lia.
    + exists (rq :: sent). rewrite Hsent, H, <- app_assoc.
      split; [reflexivity |]. cbn [List.length]. lia.
Qed.

(** X2.  When the normalizer rejects the [data] argument of a public
    operation, the operation raises that same error and the world is as it
    was: nothing has been sent. *)
Theorem failed_normalization_sends_nothing :
  forall (rt : Runtime) (op : operation) (data : value) (e : exn) (w : World),
    data_of op = Some data ->
    GrandJuryClient._parse_input rt data = Raise e ->
    perform rt op w = (Raise e, w).
Proof.
  intros rt op data e w Hdata Hparse.
  destruct op; cbn [data_of] in Hdata; try discriminate;
    injection Hdata as ->; cbn [perform];
    [ unfold GrandJuryClient.vote_histogram
    | unfold GrandJuryClient.vote_completeness
    | unfold GrandJuryClient.population_confidence
    | unfold GrandJuryClient.majority_good_votes
    | unfold GrandJuryClient.votes_distribution ];
    unfold bind at 1, lift; now rewrite Hparse.
Qed.

Lemma failed_normalization_sends_nothing_witness :
  perform Demo.runtime (Vote_histogram (VInt 7) (VInt 60) (VBool true))
    Demo.world
  = (Raise (ValueError "Unsupported data type: <class 'int'>"), Demo.world).
Proof.
  apply (failed_normalization_sends_nothing Demo.runtime
           (Vote_histogram (VInt 7) (VInt 60) (VBool true)) (VInt 7)).
  - reflexivity.
  - reflexivity.
Defined.

(** ** The URL and the headers of a request *)

Lemma lstrip_copies (c : ascii) (k : nat) (s : string) :
  Str.lstrip c (copies c k ++ s) = Str.lstrip c s.
Proof.
  induction k as [|k IH]; cbn [copies append Str.lstrip].
  - reflexivity.
  - now rewrite Ascii.eqb_refl.
Qed.

Lemma lstrip_first (c : ascii) (s : string) :
  Str.startswith (Str.lstrip c s) (String c "") = false.
Proof.
  induction s as [|a s IH]; cbn [Str.lstrip].
  - reflexivity.
  - destruct (Ascii.eqb a c) eqn:E; [exact IH |].
    cbn. rewrite Ascii.eqb_sym, E. reflexivity.
Qed.

Lemma last_char_cons (a : ascii) (s : string) :
  last_char (String a s) = match s with
                           | EmptyString => Some a
                           | _ => last_char s
                           end.
Proof.
  destruct s as [|b s]; [reflexivity |].
  cbn [last_char]. now destruct (last_char s).
Qed.

Lemma endswith_last_char (s : string) (c : ascii) :
  Str.endswith s (String c "")
  = match last_char s with
    | Some a => Ascii.eqb a c
    | None => false
    end.
Proof.
  induction s as [|a s IH]; [reflexivity |].
  rewrite endswith_cons, last_char_cons.
  destruct s as [|b s].
  - cbn. now destruct (Ascii.eqb a c).
  - replace (String.eqb (String a (String b s)) (String c "")) with false.
    + exact IH.
    + cbn. now destruct (Ascii.eqb a c).
Qed.

Lemma last_char_append (s t : string) :
  t <> "" -> last_char (s ++ t) = last_char t.
Proof.
  intros Ht. induction s as [|a s IH]; [reflexivity |].
  change (String a s ++ t) with (String a (s ++ t)).
  rewrite last_char_cons, IH.
  destruct (s ++ t) eqn:E; [| reflexivity].
  destruct s; [cbn in E; contradiction | discriminate].
Qed.

Lemma append_assoc (a b c : string) : (a ++ b) ++ c = a ++ (b ++ c).
Proof. induction a as [|x a IH]; cbn; [reflexivity | now rewrite IH]. Qed.

Lemma rstrip_copies (c : ascii) (n : nat) : Str.rstrip c (copies c n) = "".
Proof.
  induction n as [|n IH]; cbn [copies Str.rstrip]; [reflexivity |].
  now rewrite IH, Ascii.eqb_refl.
Qed.

(** Trailing copies of the character are all that [rstrip] removes from a
    text that does not itself end with it. *)
Lemma rstrip_append_copies (c : ascii) (n : nat) (s : string) :
  Str.endswith s (String c "") = false ->
  Str.rstrip c (s ++ copies c n) = s.
Proof.
  induction s as [|a s IH]; intros H.
  - apply rstrip_copies.
  - change (String a s ++ copies c n) with (String a (s ++ copies c n)).
    cbn [Str.rstrip]. rewrite endswith_last_char, last_char_cons in H.
    destruct s as [|b s].
    + cbn [append]. rewrite rstrip_copies. now rewrite H.
    + rewrite <- endswith_last_char in H. now rewrite (IH H).
Qed.

Lemma get_headers_for (c : Client) :
  GrandJuryClient._get_headers c = headers_for (api_key c).
Proof.
  unfold GrandJuryClient._get_headers, headers_for.
  destruct (api_key c) as [k|]; [| reflexivity].
  now destruct (String.eqb k "").
Qed.

Lemma init_api_key (key : option string) (url : string) :
  api_key (GrandJuryClient.__init__ key url) = key.
Proof.
  unfold GrandJuryClient.__init__; cbn [base_url api_key].
  now destruct (Str.endswith (Str.rstrip "/" url) "/api/v1").
Qed.

Lemma init_base_url_open (key : option string) (url : string) :
  Str.endswith (base_url (GrandJuryClient.__init__ key url)) "/" = false.
Proof.
  unfold GrandJuryClient.__init__; cbn [base_url api_key].
  destruct (Str.endswith (Str.rstrip "/" url) "/api/v1"); cbn [negb base_url].
  - apply rstrip_last.
  - rewrite endswith_last_char, last_char_append by discriminate.
    reflexivity.
Qed.

Lemma init_versioned (key : option string) (s : string) :
  Str.endswith s "/api/v1" = true ->
  GrandJuryClient.__init__ key s = {| api_key := key; base_url := s |}.
Proof.
  intros H. destruct (endswith_split s "/api/v1" H) as [p ->].
  unfold GrandJuryClient.__init__; cbn [base_url api_key].
  assert (E : Str.rstrip "/" (p ++ "/api/v1") = p ++ "/api/v1").
  { rewrite <- (rstrip_append_copies "/" 0 (p ++ "/api/v1")) at 2.
    - cbn [copies]. f_equal. clear. induction (p ++ "/api/v1"); cbn; congruence.
    - rewrite endswith_last_char, last_char_append by discriminate.
      reflexivity. }
  rewrite E, H. reflexivity.
Qed.

(** X3.  Leading slashes of the endpoint make no difference: the dispatch
    of [///verdict/histogram] is the dispatch of [verdict/histogram]. *)
Theorem endpoint_leading_slashes_ignored :
  forall (rt : Runtime) (k : nat) (endpoint : string) (payload : value)
         (w : World),
    GrandJuryClient._make_request rt (copies "/" k ++ endpoint) payload w
    = GrandJuryClient._make_request rt endpoint payload w.
Proof.
  intros rt k endpoint payload w.
  unfold GrandJuryClient._make_request. now rewrite lstrip_copies.
Qed.

(** The request an operation on a constructed client adds to the wire. *)
Lemma sent_request_built (rt : Runtime) (op : operation) (w : World)
  (rq : request) :
  wire (snd (perform rt op w)) = (wire w ++ [rq])%list ->
  exists endpoint payload, request_for rt (self w) endpoint payload rq.
Proof.
  intros H.
  destruct (perform_wire rt op w) as [E | (endpoint & payload & rq' & Hrq & E)].
  - rewrite E in H. apply (f_equal (@List.length request)) in H.
    rewrite length_app in H. cbn in H. lia.
  - rewrite E in H. apply app_inj_tail in H as [_ ->].
    now exists endpoint, payload.
Qed.

(** X4.  The URL of a request sent through a constructed client is the
    stored base URL, one slash, and a path that does not begin with a slash;
    the stored base URL does not end with one. *)
Theorem request_url_joined_by_one_slash :
  forall (rt : Runtime) (key : option string) (url : string) (op : operation)
         (net : list request) (rq : request),
    wire (snd (perform rt op {| self := GrandJuryClient.__init__ key url;
                                wire := net |}))
    = (net ++ [rq])%list ->
    exists path,
      req_url rq = base_url (GrandJuryClient.__init__ key url) ++ "/" ++ path
      /\ Str.endswith (base_url (GrandJuryClient.__init__ key url)) "/" = false
      /\ Str.startswith path "/" = false.
Proof.
  intros rt key url op net rq H.
  destruct (sent_request_built rt op _ rq H)
    as (endpoint & payload & Hurl & _ & _).
  exists (Str.lstrip "/" endpoint). repeat split.
  - exact Hurl.
  - apply init_base_url_open.
  - apply lstrip_first.
Qed.

Lemma request_url_joined_by_one_slash_witness :
  exists path,
    "http://host/api/v1/verdict/histogram" = "http://host/api/v1" ++ "/" ++ path
    /\ Str.endswith "http://host/api/v1" "/" = false
    /\ Str.startswith path "/" = false.
Proof.
  exact (request_url_joined_by_one_slash Demo.runtime None "http://host//"
           (Vote_histogram (VDict []) (VInt 60) (VBool true)) []
           {| req_url := "http://host/api/v1/verdict/histogram";
              req_body := JsonValue (VDict [("data", VList [VDict []]);
                                            ("duration_minutes", VInt 60);
                                            ("gross", VBool true)]);
              req_headers := [("Content-Type", "application/json")] |}
           eq_refl).
Defined.

(** X5.  Every request sent through a constructed client declares a JSON
    body, and carries [Authorization: Bearer <key>] exactly when the client
    was given a key that is not empty. *)
Theorem request_headers_follow_key :
  forall (rt : Runtime) (key : option string) (url : string) (op : operation)
         (net : list request) (rq : request),
    wire (snd (perform rt op {| self := GrandJuryClient.__init__ key url;
                                wire := net |}))
    = (net ++ [rq])%list ->
    dict_get (req_headers rq) "Content-Type" = Some "application/json"
    /\ dict_get (req_headers rq) "Authorization"
       = match key with
         | Some k => if String.eqb k "" then None else Some ("Bearer " ++ k)
         | None => None
         end.
Proof.
  intros rt key url op net rq H.
  destruct (sent_request_built rt op _ rq H)
    as (endpoint & payload & _ & Hhdr & _).
  cbn [self] in Hhdr.
  rewrite Hhdr, get_headers_for, init_api_key. unfold headers_for.
  destruct key as [k|]; [| split; reflexivity].
  destruct (String.eqb k ""); split; reflexivity.
Qed.

Lemma request_headers_follow_key_witness :
  dict_get [("Content-Type", "application/json");
            ("Authorization", "Bearer secret")] "Content-Type"
  = Some "application/json"
  /\ dict_get [("Content-Type", "application/json");
               ("Authorization", "Bearer secret")] "Authorization"
     = Some "Bearer secret".
Proof.
  exact (request_headers_follow_key Demo.runtime (Some "secret")
           "http://host" (Make_request "evaluate" VNone) []
           {| req_url := "http://host/api/v1/evaluate";
              req_body := JsonValue VNone;
              req_headers := [("Content-Type", "application/json");
                              ("Authorization", "Bearer secret")] |}
           eq_refl).
Defined.

(** X9.  A base URL that already ends with [/api/v1], with or without
    slashes after it, is stored as that text up to the segment, with nothing
    appended; so constructing a client from the stored base URL of a client
    gives the same client again. *)
Theorem versioned_base_url_is_kept :
  forall (key : option string) (prefix url : string) (n : nat),
    base_url (GrandJuryClient.__init__ key
                (prefix ++ "/api/v1" ++ copies "/" n))
    = prefix ++ "/api/v1"
    /\ GrandJuryClient.__init__ key
         (base_url (GrandJuryClient.__init__ key url))
       = GrandJuryClient.__init__ key url.
Proof.
  intros key prefix url n. split.
  - unfold GrandJuryClient.__init__; cbn [base_url api_key].
    rewrite <- append_assoc, rstrip_append_copies.
    + now rewrite endswith_append.
    + rewrite endswith_last_char, last_char_append by discriminate.
      reflexivity.
  - assert (Hv : Str.endswith (base_url (GrandJuryClient.__init__ key url))
                   "/api/v1" = true).
    { unfold GrandJuryClient.__init__; cbn [base_url api_key].
      destruct (Str.endswith (Str.rstrip "/" url) "/api/v1") eqn:E;
        cbn [negb base_url]; [exact E | apply endswith_append]. }
    rewrite (init_versioned key _ Hv).
    rewrite <- (init_api_key key url) at 1.
    now destruct (GrandJuryClient.__init__ key url).
Qed.

Lemma evaluate_model_wire (rt : Runtime)
  (previous_score previous_timestamp votes reputations : value) (w : World) :
  wire (snd (GrandJuryClient.evaluate_model rt previous_score
               previous_timestamp votes reputations w)) = wire w
  \/ exists payload rq,
      request_for rt (self w) "evaluate" payload rq
      /\ wire (snd (GrandJuryClient.evaluate_model rt previous_score
                      previous_timestamp votes reputations w))
         = (wire w ++ [rq])%list.
Proof.
  assert (Hdispatch : forall payload,
             wire (snd (GrandJuryClient._make_request rt "evaluate" payload w))
             = wire w
             \/ exists payload' rq,
                 request_for rt (self w) "evaluate" payload' rq
                 /\ wire (snd (GrandJuryClient._make_request rt "evaluate"
                                 payload w))
                    = (wire w ++ [rq])%list).
  { intros payload.
    destruct (make_request_cases rt "evaluate" payload w)
      as [[e He] | (rq & Hrq & Hw)].
    - left. now rewrite He.
    - right. exists payload, rq. split; [exact Hrq | now rewrite Hw]. }
  unfold GrandJuryClient.evaluate_model, bind at 1.
  destruct (is_None previous_timestamp).
  - unfold bind at 1, lift, ret.
    destruct (Datetime.sub_hours (now rt) 1); [apply Hdispatch | now left].
  - unfold ret. apply Hdispatch.
Qed.

(** X11.  The backward-compatible function sends at most one request, and
    that request goes to the [evaluate] endpoint of the default server with
    the headers of the key it was given. *)
Theorem legacy_posts_to_default_evaluate :
  forall (rt : Runtime) (predictions references : value)
         (key : option string) (net : list request),
    snd (evaluate_model rt predictions references key net) = net
    \/ exists rq,
        snd (evaluate_model rt predictions references key net)
        = (net ++ [rq])%list
        /\ req_url rq
           = "https://grandjury-server.onrender.com/api/v1/evaluate"
        /\ req_headers rq = headers_for key.
Proof.
  intros rt predictions references key net.
  assert (Hcall : forall votes reputations,
             let out := (r <- call (GrandJuryClient.__init__ key API_BASE_URL)
                               (GrandJuryClient.evaluate_model rt
                                  GrandJuryClient.default_previous_score VNone
                                  votes reputations) ;;
                         ret (fst r)) net in
             snd out = net
             \/ exists rq,
                 snd out = (net ++ [rq])%list
                 /\ req_url rq
                    = "https://grandjury-server.onrender.com/api/v1/evaluate"
                 /\ req_headers rq = headers_for key).
  { intros votes reputations out. subst out.
    pose proof (evaluate_model_wire rt GrandJuryClient.default_previous_score
                  VNone votes reputations
                  {| self := GrandJuryClient.__init__ key API_BASE_URL;
                     wire := net |}) as H.
    unfold bind, call, ret.
    destruct (GrandJuryClient.evaluate_model rt _ _ _ _ _) as [[a|e] w];
      cbn [snd fst wire self] in *;
      (destruct H as [H | (payload & rq & (Hurl & Hhdr & _) & H)];
       [left; exact H |
        right; exists rq; split; [exact H |];
        split; [exact Hurl | now rewrite Hhdr, get_headers_for, init_api_key]]). }
  unfold evaluate_model.
  destruct predictions; try apply Hcall.
  destruct references; apply Hcall.
Qed.

(** ** The plain-text CSV parser, row by row *)

Lemma dict_set_fresh {V} (d : list (string * V)) (k : string) (v : V) :
  ~ In k (keys d) -> dict_set d k v = (d ++ [(k, v)])%list.
Proof.
  unfold keys. induction d as [|[k' v'] d IH]; intros H; cbn.
  - reflexivity.
  - destruct (String.eqb_spec k' k) as [-> | _].
    + exfalso. apply H. now left.
    + rewrite IH; [reflexivity |]. intros Hin. apply H. now right.
Qed.

(** Setting distinct new keys one after the other lists them in order. *)
Lemma fold_dict_set_fresh {A V} (g : A -> V) (l : list (string * A)) :
  forall acc : list (string * V),
    NoDup (keys acc ++ keys l) ->
    fold_left (fun d kv => dict_set d (fst kv) (g (snd kv))) l acc
    = (acc ++ map (fun kv => (fst kv, g (snd kv))) l)%list.
Proof.
  unfold keys.
  induction l as [|[k a] l IH]; intros acc Hnd; cbn [fold_left map fst snd].
  - now rewrite app_nil_r.
  - rewrite dict_set_fresh.
    + rewrite IH.
      * now rewrite <- app_assoc.
      * rewrite map_app. cbn. rewrite <- app_assoc. exact Hnd.
    + intros Hin. apply NoDup_remove_2 in Hnd. apply Hnd.
      apply in_or_app. now left.
Qed.

Lemma keys_combine (header : list string) {A} (row : list A) :
  List.length row = List.length header ->
  keys (combine header row) = header.
Proof.
  unfold keys. revert row.
  induction header as [|h header IH]; intros [|c row] H; cbn in *;
    try discriminate; [reflexivity |].
  now rewrite IH by lia.
Qed.

Lemma process_items_fresh (rt : Runtime) (l : list (string * string)) :
  forall acc : record,
    NoDup (keys acc ++ keys l) ->
    GrandJuryClient.process_items rt
      (map (fun kv => (fst kv, Some (snd kv))) l) acc
    = Ok (acc ++ map (fun kv => (fst kv, GrandJuryClient.coerce_cell rt (snd kv)))
                     l)%list.
Proof.
  unfold keys.
  induction l as [|[k v] l IH]; intros acc Hnd;
    cbn [GrandJuryClient.process_items map fst snd].
  - now rewrite app_nil_r.
  - rewrite dict_set_fresh.
    + rewrite IH.
      * now rewrite <- app_assoc.
      * rewrite map_app. cbn. rewrite <- app_assoc. exact Hnd.
    + intros Hin. apply NoDup_remove_2 in Hnd. apply Hnd.
      apply in_or_app. now left.
Qed.

Lemma map_combine_snd {A B} (f : A -> B) (header : list string) (row : list A) :
  map (fun kv => (fst kv, f (snd kv))) (combine header row)
  = combine header (map f row).
Proof.
  revert row. induction header as [|h header IH]; intros [|c row]; cbn;
    try reflexivity. now rewrite IH.
Qed.

(** A row with as many cells as the header has distinct names becomes the
    record that pairs each name with its coerced cell. *)
Lemma process_row_well_formed (rt : Runtime) (header row : list string) :
  NoDup header ->
  List.length row = List.length header ->
  GrandJuryClient.process_row rt (Csv.dict_row header row)
  = Ok (combine header (map (GrandJuryClient.coerce_cell rt) row)).
Proof.
  intros Hnd Hlen.
  unfold GrandJuryClient.process_row, Csv.dict_row.
  rewrite Hlen, Nat.ltb_irrefl. cbn [Csv.items Csv.restkey_value].
  rewrite (fold_dict_set_fresh (@Some string) (combine header row) [])
    by (cbn; now rewrite keys_combine).
  cbn [app]. rewrite process_items_fresh
    by (cbn; now rewrite keys_combine).
  cbn. now rewrite map_combine_snd.
Qed.

Lemma dict_rows_ok (header : list string) (rows : list (list string)) :
  Csv.dict_rows header (map Ok rows)
  = map (fun row => Ok (Csv.dict_row header row)) (filter nonblank rows).
Proof.
  induction rows as [|row rows IH]; cbn; [reflexivity |].
  destruct row as [|c row]; cbn [nonblank]; [exact IH |].
  cbn. now rewrite IH.
Qed.

Lemma process_rows_well_formed (rt : Runtime) (header : list string)
  (rows : list (list string)) (acc : list record) :
  NoDup header ->
  (forall row, In row rows -> List.length row = List.length header) ->
  GrandJuryClient.process_rows rt
    (map (fun row => Ok (Csv.dict_row header row)) rows) acc
  = Ok (acc ++ map (fun row =>
                      combine header
                        (map (GrandJuryClient.coerce_cell rt) row))
                   rows)%list.
Proof.
  intros Hnd. revert acc.
  induction rows as [|row rows IH]; intros acc Hwf;
    cbn [map GrandJuryClient.process_rows].
  - now rewrite app_nil_r.
  - rewrite process_row_well_formed by (auto; apply Hwf; now left).
    cbn [rbind]. rewrite IH by (intros r Hr; apply Hwf; now right).
    now rewrite <- app_assoc.
Qed.

(** X7.  Read by the plain-text parser, a CSV file whose header names are
    distinct and whose rows, blank lines apart, all have as many cells as
    the header, becomes one record per such row, in order: the header names
    paired with the coerced cells.  Blank lines give no record. *)
Theorem well_formed_csv_records :
  forall (rt : Runtime) (path f : string) (header : list string)
         (rows : list (list string)),
    HAS_PANDAS rt = false ->
    open_text rt path = Ok f ->
    Csv.reader f = Ok header :: map Ok rows ->
    NoDup header ->
    (forall row, In row rows ->
                 row = [] \/ List.length row = List.length header) ->
    GrandJuryClient._parse_csv rt path
    = Ok (map (fun row =>
                 combine header (map (GrandJuryClient.coerce_cell rt) row))
              (filter nonblank rows)).
Proof.
  intros rt path f header rows Hp Hf Hreader Hnd Hrows.
  unfold GrandJuryClient._parse_csv. rewrite Hp, Hf. cbn [rbind].
  unfold Csv.DictReader. rewrite Hreader, dict_rows_ok.
  assert (Hwf : forall row, In row (filter nonblank rows) ->
                            List.length row = List.length header).
  { intros row Hin. apply filter_In in Hin as [Hin Hnb].
    destruct (Hrows row Hin) as [-> | H]; [discriminate | exact H]. }
  now rewrite (process_rows_well_formed rt header _ [] Hnd Hwf).
Qed.

Lemma well_formed_csv_records_witness :
  GrandJuryClient._parse_csv Demo.runtime "ab.csv"
  = Ok [[("a", VInt 1); ("b", VFloat 2.5%float)]].
Proof.
  apply (well_formed_csv_records Demo.runtime "ab.csv" Demo.ab_csv
           ["a"; "b"] [["1"; "2.5"]]).
  - reflexivity.
  - reflexivity.
  - reflexivity.
  - repeat constructor; cbn; intuition discriminate.
  - intros row [<- | []]. now right.
Defined.

(** ** Rows of uneven length *)

Lemma process_items_none (rt : Runtime) (its : list (string * option string)) :
  has_none its ->
  forall acc,
    GrandJuryClient.process_items rt its acc
    = Raise (AttributeError no_lower_on_none).
Proof.
  intros [k Hin].
  induction its as [|[k' [v|]] its IH]; intros acc;
    cbn [GrandJuryClient.process_items].
  - destruct Hin.
  - destruct Hin as [Heq | Hin]; [discriminate | now apply IH].
  - reflexivity.
Qed.

Lemma process_items_all_some (rt : Runtime)
  (its : list (string * option string)) :
  all_some its ->
  forall acc, exists out, GrandJuryClient.process_items rt its acc = Ok out.
Proof.
  unfold all_some.
  induction its as [|[k [v|]] its IH]; intros H acc;
    cbn [GrandJuryClient.process_items].
  - now exists acc.
  - apply IH. intros kv Hin. apply H. now right.
  - exfalso. apply (H (k, None)); [now left | reflexivity].
Qed.

Lemma dict_set_some_all_some {A} (d : list (string * option A)) (k : string)
  (v : A) :
  all_some d -> all_some (dict_set d k (Some v)).
Proof.
  unfold all_some. induction d as [|[k' v'] d IH]; intros H kv Hin; cbn in Hin.
  - destruct Hin as [<- | []]. discriminate.
  - destruct (String.eqb k' k).
    + destruct Hin as [<- | Hin]; [discriminate | apply H; now right].
    + destruct Hin as [<- | Hin]; [apply H; now left |].
      apply IH; [| exact Hin]. intros kv' Hin'. apply H. now right.
Qed.

Lemma zipped_all_some {A} (l : list (string * A)) :
  forall d : list (string * option A),
    all_some d ->
    all_some (fold_left (fun d kv => dict_set d (fst kv) (Some (snd kv))) l d).
Proof.
  induction l as [|[k a] l IH]; intros d Hd; cbn [fold_left].
  - exact Hd.
  - apply IH. now apply dict_set_some_all_some.
Qed.

Lemma dict_set_none_has_none {A} (d : list (string * option A)) (k : string) :
  has_none (dict_set d k None).
Proof.
  unfold has_none. induction d as [|[k' v'] d [k0 IH]]; cbn.
  - exists k. now left.
  - destruct (String.eqb k' k).
    + exists k'. now left.
    + exists k0. now right.
Qed.

Lemma filled_has_none {A} (ks : list string) :
  ks <> [] ->
  forall d : list (string * option A),
    has_none (fold_left (fun d k => dict_set d k None) ks d).
Proof.
  induction ks as [|k ks IH]; intros Hks d; [contradiction |].
  cbn [fold_left]. destruct ks as [|k' ks].
  - apply dict_set_none_has_none.
  - apply IH. discriminate.
Qed.

(** What becomes of one row: a record when it has as many cells as the
    header has names, an [AttributeError] when it has more or fewer. *)
Lemma process_row_outcome (rt : Runtime) (header row : list string) :
  (List.length row = List.length header ->
   exists out, GrandJuryClient.process_row rt (Csv.dict_row header row) = Ok out)
  /\ (List.length header < List.length row ->
      GrandJuryClient.process_row rt (Csv.dict_row header row)
      = Raise (AttributeError no_lower_on_list))%nat
  /\ (List.length row < List.length header ->
      GrandJuryClient.process_row rt (Csv.dict_row header row)
      = Raise (AttributeError no_lower_on_none))%nat.
Proof.
  assert (Hzip : all_some
                   (fold_left (fun d kv => dict_set d (fst kv) (Some (snd kv)))
                              (combine header row)
                              (@nil (string * option string)))).
  { apply zipped_all_some. intros kv []. }
  unfold GrandJuryClient.process_row, Csv.dict_row.
  repeat split.
  - intros ->. rewrite Nat.ltb_irrefl. cbn [Csv.items Csv.restkey_value].
    destruct (process_items_all_some rt _ Hzip []) as [out ->].
    now exists out.
  - intros Hlt. apply Nat.ltb_lt in Hlt. rewrite Hlt.
    cbn [Csv.items Csv.restkey_value].
    destruct (process_items_all_some rt _ Hzip []) as [out ->].
    reflexivity.
  - intros Hlt.
    destruct (Nat.ltb_spec (List.length header) (List.length row)); [lia |].
    apply Nat.ltb_lt in Hlt. rewrite Hlt.
    cbn [Csv.items Csv.restkey_value].
    rewrite process_items_none; [reflexivity |].
    apply filled_has_none.
    intros Hnil. apply (f_equal (@List.length string)) in Hnil.
    rewrite length_skipn in Hnil. apply Nat.ltb_lt in Hlt. cbn in Hnil. lia.
Qed.

Lemma process_rows_ragged (rt : Runtime) (header bad : list string)
  (rows : list (list string)) :
  In bad rows ->
  List.length bad <> List.length header ->
  forall acc,
    exists msg,
      GrandJuryClient.process_rows rt
        (map (fun row => Ok (Csv.dict_row header row)) rows) acc
      = Raise (AttributeError msg).
Proof.
  intros Hin Hbad.
  induction rows as [|row rows IH]; intros acc; [destruct Hin |].
  cbn [map GrandJuryClient.process_rows].
  destruct (process_row_outcome rt header row) as (Heq & Hmore & Hless).
  destruct (Nat.lt_total (List.length row) (List.length header))
    as [Hlt | [Hlen | Hgt]].
  - rewrite (Hless Hlt). now eexists.
  - destruct (Heq Hlen) as [out ->]. cbn [rbind].
    destruct Hin as [-> | Hin]; [contradiction | now apply IH].
  - rewrite (Hmore Hgt). now eexists.
Qed.

(** X6.  Read by the plain-text parser, a CSV file in which some row, not
    a blank line, has more or fewer cells than the header, is not parsed at
    all: the call raises [AttributeError], whatever the other rows hold. *)
Theorem ragged_csv_row_fails_the_parse :
  forall (rt : Runtime) (path f : string) (header bad : list string)
         (rows : list (list string)),
    HAS_PANDAS rt = false ->
    open_text rt path = Ok f ->
    Csv.reader f = Ok header :: map Ok rows ->
    In bad rows ->
    bad <> [] ->
    List.length bad <> List.length header ->
    exists msg,
      GrandJuryClient._parse_csv rt path = Raise (AttributeError msg).
Proof.
  intros rt path f header bad rows Hp Hf Hreader Hin Hnb Hbad.
  unfold GrandJuryClient._parse_csv. rewrite Hp, Hf. cbn [rbind].
  unfold Csv.DictReader. rewrite Hreader, dict_rows_ok.
  apply (process_rows_ragged rt header bad); [| exact Hbad].
  apply filter_In. split; [exact Hin |].
  destruct bad; [contradiction | reflexivity].
Qed.

Lemma ragged_csv_row_fails_the_parse_witness :
  exists msg,
    GrandJuryClient._parse_csv Lab.plain "ragged.csv"
    = Raise (AttributeError msg).
Proof.
  apply (ragged_csv_row_fails_the_parse Lab.plain "ragged.csv" Lab.ragged_csv
           ["a"; "b"] ["1"] [["1"]; ["2"; "3"]]).
  - reflexivity.
  - reflexivity.
  - reflexivity.
  - now left.
  - discriminate.
  - discriminate.
Defined.

(** The file of the witness, evaluated: the short row stops the parse. *)
Example ragged_csv_evaluated :
  GrandJuryClient._parse_input Lab.plain (VStr "ragged.csv")
  = Raise (AttributeError no_lower_on_none).
Proof. reflexivity. Qed.

(** ** Records from pandas *)

Lemma convert_record_fresh (rt : Runtime) (rec : record) :
  forall acc : record,
    NoDup (keys acc ++ keys rec) ->
    fold_left
      (fun converted_record kv =>
         if HAS_PANDAS rt && pd_isna rt (snd kv)
         then dict_set converted_record (fst kv) VNone
         else match py_item rt (snd kv) with
              | Some x => dict_set converted_record (fst kv) x
              | None => dict_set converted_record (fst kv) (snd kv)
              end)
      rec acc
    = (acc ++ map (fun kv => (fst kv, convert_value rt (snd kv))) rec)%list.
Proof.
  unfold keys.
  induction rec as [|[k v] rec IH]; intros acc Hnd; cbn [fold_left map fst snd].
  - now rewrite app_nil_r.
  - assert (Hk : ~ In k (keys acc)).
    { intros Hin. apply NoDup_remove_2 in Hnd. apply Hnd.
      apply in_or_app. now left. }
    assert (Hstep : forall x : value,
               fold_left
                 (fun converted_record kv =>
                    if HAS_PANDAS rt && pd_isna rt (snd kv)
                    then dict_set converted_record (fst kv) VNone
                    else match py_item rt (snd kv) with
                         | Some x => dict_set converted_record (fst kv) x
                         | None => dict_set converted_record (fst kv) (snd kv)
                         end)
                 rec (dict_set acc k x)
               = (acc ++ (k, x)
                         :: map (fun kv => (fst kv, convert_value rt (snd kv)))
                                rec)%list).
    { intros x. rewrite (dict_set_fresh acc k x Hk), IH.
      - now rewrite <- app_assoc.
      - rewrite map_app. cbn. rewrite <- app_assoc. exact Hnd. }
    destruct (HAS_PANDAS rt && pd_isna rt v) eqn:E1;
      [| destruct (py_item rt v) eqn:E2];
      rewrite Hstep; do 2 f_equal; unfold convert_value;
      now rewrite E1, ?E2.
Qed.

(** X8.  With pandas installed, the records of a dataframe keep their
    number, their order, and in each record the keys and their order; each
    value is replaced by [None] when pandas calls it missing, by what its
    [item] method returns when it has one, and kept otherwise. *)
Theorem pandas_records_keep_shape :
  forall (rt : Runtime) (df : pyobject) (records : list record),
    HAS_PANDAS rt = true ->
    df_records_notna rt df = Ok records ->
    (forall rec, In rec records -> NoDup (keys rec)) ->
    GrandJuryClient._pandas_to_records rt (VObj df)
    = Ok (map (map (fun kv => (fst kv, convert_value rt (snd kv)))) records).
Proof.
  intros rt df records Hp Hdf Hnd.
  unfold GrandJuryClient._pandas_to_records, GrandJuryClient.method.
  rewrite Hp, Hdf. cbn [rbind]. f_equal.
  apply map_ext_in. intros rec Hin.
  unfold GrandJuryClient.convert_record.
  rewrite (convert_record_fresh rt rec []); [reflexivity |].
  cbn. now apply Hnd.
Qed.

Lemma pandas_records_keep_shape_witness :
  GrandJuryClient._pandas_to_records Lab.pandas (VObj Lab.frame)
  = Ok [[("score", VFloat 0.5%float); ("label", VNone)]].
Proof.
  apply (pandas_records_keep_shape Lab.pandas Lab.frame
           [[("score", VFloat 0.5%float); ("label", VNone)]]).
  - reflexivity.
  - reflexivity.
  - intros rec [<- | []]. repeat constructor; cbn; intuition discriminate.
Defined.

(** ** The first hour of the calendar *)

Lemma sub_hours_overflows (dt : Datetime.datetime) :
  (Datetime.to_microseconds dt
   < Datetime.to_microseconds Datetime.datetime_min + hour_us)%Z ->
  Datetime.sub_hours dt 1 = Raise (OverflowError "date value out of range").
Proof.
  change (Datetime.to_microseconds Datetime.datetime_min) with 86400000000%Z.
  unfold hour_us. intros H. unfold Datetime.sub_hours.
  replace (0 <? (Datetime.to_microseconds dt - 1 * 3600 * 1000000)
                / 86400000000)%Z with false; [reflexivity |].
  symmetry. apply Z.ltb_ge.
  Z.div_mod_to_equations. lia.
Qed.

(** X10.  With no previous timestamp given and a clock that reads less
    than an hour after the first date-time there is, the evaluate operation
    raises [OverflowError] and sends nothing. *)
Theorem evaluate_overflows_in_first_hour :
  forall (rt : Runtime) (previous_score votes reputations : value) (w : World),
    (Datetime.to_microseconds (now rt)
     < Datetime.to_microseconds Datetime.datetime_min + hour_us)%Z ->
    GrandJuryClient.evaluate_model rt previous_score VNone votes reputations w
    = (Raise (OverflowError "date value out of range"), w).
Proof.
  intros rt previous_score votes reputations w H.
  unfold GrandJuryClient.evaluate_model, bind at 1. cbn [is_None].
  unfold bind at 1, lift. now rewrite (sub_hours_overflows (now rt) H).
Qed.

Lemma evaluate_overflows_in_first_hour_witness :
  GrandJuryClient.evaluate_model Lab.early (VFloat 0%float) VNone VNone VNone
    Demo.world
  = (Raise (OverflowError "date value out of range"), Demo.world).
Proof.
  apply (evaluate_overflows_in_first_hour Lab.early).
  vm_compute. reflexivity.
Defined.

(** ** Arguments that are not lists, and inputs that are not data *)

(** X12.  When the predictions and the references are not both lists, the
    backward-compatible function compares nothing: it is the evaluate
    operation called with the predictions as votes and the references as
    reputations, as they are. *)
Theorem legacy_forwards_non_lists :
  forall (rt : Runtime) (predictions references : value)
         (key : option string) (net : list request),
    is_list predictions && is_list references = false ->
    evaluate_model rt predictions references key net
    = evaluate_call rt key predictions references net.
Proof.
  intros rt predictions references key net H.
  assert (Hcall : (r <- call (GrandJuryClient.__init__ key API_BASE_URL)
                         (GrandJuryClient.evaluate_model rt
                            GrandJuryClient.default_previous_score VNone
                            predictions references) ;;
                   ret (fst r)) net
                  = evaluate_call rt key predictions references net).
  { unfold evaluate_call, call, bind, ret.
    destruct (GrandJuryClient.evaluate_model rt _ _ _ _ _) as [[a|e] w];
      reflexivity. }
  unfold evaluate_model.
  destruct predictions; try exact Hcall.
  destruct references; try exact Hcall.
  discriminate.
Qed.

Lemma legacy_forwards_non_lists_witness :
  evaluate_model Demo.runtime VNone (VList [VFloat 1%float]) None []
  = evaluate_call Demo.runtime None VNone (VList [VFloat 1%float]) [].
Proof.
  apply (legacy_forwards_non_lists Demo.runtime VNone (VList [VFloat 1%float])).
  reflexivity.
Defined.

(** The request of the witness: unset votes go out as the empty list. *)
Example legacy_none_votes_on_the_wire :
  evaluate_model Demo.runtime VNone (VList [VFloat 1%float]) None []
  = (Ok VNone,
     [Demo.request_of "evaluate"
        (VDict [("previous_score", VFloat 0%float);
                ("previous_timestamp", VStr "2024-02-29T23:30:05");
                ("votes", VList []);
                ("reputations", VList [VFloat 1%float])])]).
Proof. vm_compute. reflexivity. Qed.

(** X13.  [None], a boolean, an integer and a float are rejected by the
    normalizer with [ValueError], whichever optional libraries are
    installed. *)
Theorem normalize_rejects_bare_scalars :
  forall (rt : Runtime) (data : value),
    is_scalar data = true ->
    (forall s, data <> VStr s) ->
    GrandJuryClient._parse_input rt data
    = Raise (ValueError ("Unsupported data type: " ++ type_repr data)).
Proof.
  intros rt data Hs Hstr.
  destruct data; try discriminate;
    try (unfold GrandJuryClient._parse_input;
         cbn [GrandJuryClient.has_module GrandJuryClient.module_of];
         rewrite !andb_false_r; reflexivity).
  exfalso. now apply (Hstr s).
Qed.

Lemma normalize_rejects_bare_scalars_witness :
  GrandJuryClient._parse_input Lab.pandas (VFloat 0.5%float)
  = Raise (ValueError "Unsupported data type: <class 'float'>").
Proof.
  apply (normalize_rejects_bare_scalars Lab.pandas (VFloat 0.5%float)).
  - reflexivity.
  - discriminate.
Defined.

(** X14.  A cell becomes a boolean exactly when its text is [true] or
    [false] up to case, and null exactly when its text is [none] up to case
    or empty: no numeric parse yields either.  When a cell stays a text, the
    text is the cell itself. *)
Theorem coerce_cell_booleans_and_null :
  forall (rt : Runtime) (v : string),
    (forall b, GrandJuryClient.coerce_cell rt v = VBool b
               <-> Str.lower v = (if b then "true" else "false"))
    /\ (GrandJuryClient.coerce_cell rt v = VNone
        <-> Str.lower v = "none" \/ v = "")
    /\ (forall s, GrandJuryClient.coerce_cell rt v = VStr s -> s = v).
Proof.
  intros rt v. unfold GrandJuryClient.coerce_cell. cbn [existsb].
  assert (Hempty : v = "" -> Str.lower v = "") by (intros ->; reflexivity).
  destruct (String.eqb_spec (Str.lower v) "true") as [Et | Et].
  { cbn [orb]. repeat split.
    - intros H. injection H as <-. exact Et.
    - intros H. destruct b; [reflexivity | congruence].
    - discriminate.
    - intros [H | H]; [congruence | apply Hempty in H; congruence].
    - discriminate. }
  destruct (String.eqb_spec (Str.lower v) "false") as [Ef | Ef].
  { cbn [orb]. repeat split.
    - intros H. injection H as <-. exact Ef.
    - intros H. destruct b; [congruence | reflexivity].
    - discriminate.
    - intros [H | H]; [congruence | apply Hempty in H; congruence].
    - discriminate. }
  cbn [orb].
  destruct (String.eqb_spec (Str.lower v) "none") as [En | En].
  { cbn [orb]. repeat split.
    - discriminate.
    - intros H. destruct b; congruence.
    - now left.
    - discriminate. }
  destruct (String.eqb_spec v "") as [Ee | Ee].
  { cbn [orb]. repeat split.
    - discriminate.
    - intros H. destruct b; congruence.
    - now right.
    - discriminate. }
  cbn [orb].
  assert (Hparsed : forall x : value,
             (if Str.contains v "."
              then option_map VFloat (py_float rt v)
              else option_map VInt (py_int rt v)) = Some x ->
             (forall b, x <> VBool b) /\ x <> VNone /\ (forall s, x <> VStr s)).
  { intros x. destruct (Str.contains v ".").
    - destruct (py_float rt v); cbn; [| discriminate].
      intros H. injection H as <-. repeat split; discriminate.
    - destruct (py_int rt v); cbn; [| discriminate].
      intros H. injection H as <-. repeat split; discriminate. }
  destruct (if Str.contains v "."
            then option_map VFloat (py_float rt v)
            else option_map VInt (py_int rt v)) as [x|].
  - destruct (Hparsed x eq_refl) as (Hb & Hn & Hs). repeat split.
    + intros H. now apply Hb in H.
    + intros H. destruct b; congruence.
    + intros H. contradiction.
    + intros [H | H]; congruence.
    + intros s H. now apply Hs in H.
  - repeat split.
    + discriminate.
    + intros H. destruct b; congruence.
    + discriminate.
    + intros [H | H]; congruence.
    + intros s H. now injection H as <-.
Qed.

(** X15.  A path whose suffix is [.parquet] or [.pq], in any case, is read
    by pyarrow when pandas is not installed and pyarrow is, and its records
    are returned as pyarrow gives them; with neither installed the call
    raises [ImportError], whatever is on disk. *)
Theorem parquet_without_pandas :
  forall (rt : Runtime) (p : string),
    HAS_PANDAS rt = false ->
    Str.lower (Path.suffix p) = ".parquet" \/ Str.lower (Path.suffix p) = ".pq" ->
    GrandJuryClient._parse_input rt (VPath p)
    = GrandJuryClient._parse_input rt (VStr p)
    /\ GrandJuryClient._parse_input rt (VStr p)
       = (if HAS_PYARROW rt
          then rmap GrandJuryClient.records_value (pq_read_pylist rt p)
          else Raise (ImportError
                 "Either pandas or pyarrow is required to read Parquet files")).
Proof.
  intros rt p Hp Hsuffix. split; [reflexivity |].
  unfold GrandJuryClient._parse_input, GrandJuryClient._parse_parquet.
  rewrite Hp.
  destruct Hsuffix as [-> | ->]; cbn [String.eqb existsb orb];
    now destruct (HAS_PYARROW rt).
Qed.

Lemma parquet_without_pandas_witness :
  GrandJuryClient._parse_input Demo.runtime (VPath "votes.PQ")
  = GrandJuryClient._parse_input Demo.runtime (VStr "votes.PQ")
  /\ GrandJuryClient._parse_input Demo.runtime (VStr "votes.PQ")
     = Raise (ImportError
                "Either pandas or pyarrow is required to read Parquet files").
Proof.
  apply (parquet_without_pandas Demo.runtime "votes.PQ").
  - reflexivity.
  - right. reflexivity.
Defined.

(** ** The payload of an operation on data *)

(** X16.  When the normalizer accepts the [data] argument of a public
    operation, the operation is one dispatch to its endpoint, with a payload
    whose [data] is the normalized input; the payload has an [inference_ids]
    entry exactly when the operation was given inference ids other than
    [None], and then it is that value. *)
Theorem data_operation_dispatches_normalized :
  forall (rt : Runtime) (op : operation) (data parsed : value) (w : World),
    data_of op = Some data ->
    GrandJuryClient._parse_input rt data = Ok parsed ->
    exists endpoint payload,
      endpoint_of op = Some endpoint
      /\ perform rt op w
         = GrandJuryClient._make_request rt endpoint (VDict payload) w
      /\ dict_get payload "data" = Some parsed
      /\ dict_get payload "inference_ids"
         = match inference_ids_of op with
           | Some ids => if is_None ids then None else Some ids
           | None => None
           end.
Proof.
  intros rt op data parsed w Hdata Hparse.
  destruct op; cbn [data_of] in Hdata; try discriminate;
    injection Hdata as ->;
    cbn [perform endpoint_of inference_ids_of];
    [ unfold GrandJuryClient.vote_histogram
    | unfold GrandJuryClient.vote_completeness
    | unfold GrandJuryClient.population_confidence
    | unfold GrandJuryClient.majority_good_votes
    | unfold GrandJuryClient.votes_distribution ];
    unfold bind at 1, lift; rewrite Hparse;
    unfold GrandJuryClient.with_inference_ids;
    try (destruct (is_None inference_ids); cbn [negb]);
    do 2 eexists; (split; [reflexivity |]);
    (split; [reflexivity |]); split; reflexivity.
Qed.

Lemma data_operation_dispatches_normalized_witness :
  exists endpoint payload,
    Some "verdict/votes-distribution" = Some endpoint
    /\ perform Demo.runtime
         (Votes_distribution (VDict [("vote", VBool true)])
            (VList [VInt 3]))
         Demo.world
       = GrandJuryClient._make_request Demo.runtime endpoint (VDict payload)
           Demo.world
    /\ dict_get payload "data" = Some (VList [VDict [("vote", VBool true)]])
    /\ dict_get payload "inference_ids" = Some (VList [VInt 3]).
Proof.
  exact (data_operation_dispatches_normalized Demo.runtime
           (Votes_distribution (VDict [("vote", VBool true)]) (VList [VInt 3]))
           (VDict [("vote", VBool true)])
           (VList [VDict [("vote", VBool true)]])
           Demo.world eq_refl eq_refl).
Defined.
